(** * ITIRP: risk engine, execution engine and event store

    A shallow embedding of [itirp_complete.py] and the verification of its
    specification's claims C1 to C10.

    Data.  Python [float] is the kernel's binary64 [float]; Python [int] is
    [Z]; a [datetime] is the number of microseconds since the start of the
    calendar; a [dict] is an insertion-ordered association list; a [set] is a
    [gset].

    State.  Objects that the program mutates through several references
    ([Position] and [Order] instances) live in an object store and are
    designated by their address, so that two dictionaries holding the same
    object see each other's attribute writes.  Programs are functions from
    the store to a result, normal or exceptional, and a new store.

    Environment.  Identifiers, clock readings, random draws, digests and the
    rendering of floats come from an environment [Env]; every result holds
    for all environments unless it names one.

    Scheduling.  Each coroutine is run to completion: interleaving of
    coroutines at their [await] points is outside this model. *)

From Stdlib Require Import ZArith Floats.
From stdpp Require Import base option list strings gmap pretty.

Local Open Scope Z_scope.
Set Warnings "-inexact-float".

(** ** Python containers *)

(** [dict]: keys are unique, iteration follows insertion order. *)
Abbreviation dict V := (list (string * V)).

Fixpoint dict_get {V} (d : dict V) (k : string) : option V :=
  match d with
  | [] => None
  | (k', v) :: d' => if decide (k = k') then Some v else dict_get d' k
  end.

(** [d[k] = v]: overwrite in place, or append a new entry. *)
Fixpoint dict_set {V} (d : dict V) (k : string) (v : V) : dict V :=
  match d with
  | [] => [(k, v)]
  | (k', v') :: d' =>
      if decide (k = k') then (k', v) :: d' else (k', v') :: dict_set d' k v
  end.

(** [k in d] *)
Definition dict_contains {V} (d : dict V) (k : string) : bool :=
  bool_decide (is_Some (dict_get d k)).

Definition dict_keys {V} (d : dict V) : list string := d.*1.
Definition dict_values {V} (d : dict V) : list V := d.*2.

(** [sep.join(xs)] *)
Fixpoint join (sep : string) (xs : list string) : string :=
  match xs with
  | [] => ""
  | [x] => x
  | x :: xs' => x +:+ sep +:+ join sep xs'
  end.

(** The built-in [sum]: a left fold starting from [0].  (From Python 3.12 on
    [sum] compensates the rounding of float addends; nothing below depends
    on how the addends are combined.) *)
Definition py_sum (xs : list float) : float :=
  fold_left PrimFloat.add xs 0%float.

(** [range(n)] *)
Definition range (n : Z) : list Z := Z.of_nat <$> seq 0 (Z.to_nat n).

(** ** Configuration and constants *)

Definition ACCESS_TOKEN_EXPIRE_MINUTES : Z := 30.

Definition DEFAULT_MAX_POSITION_SIZE : float := 1000000%float.
Definition DEFAULT_MAX_DAILY_VOLUME : float := 10000000%float.
Definition DEFAULT_MAX_NET_EXPOSURE : float := 5000000%float.
Definition DEFAULT_MAX_GROSS_EXPOSURE : float := 15000000%float.

Definition MAX_RETRY_ATTEMPTS : Z := 3.
Definition CIRCUIT_BREAKER_THRESHOLD : Z := 5.
Definition CIRCUIT_BREAKER_TIMEOUT : Z := 60.

(** ** Time *)

Abbreviation datetime := Z.

(** [timedelta(seconds=s)] *)
Definition timedelta_seconds (s : Z) : Z := s * 1000000.

(** [t.date()]: the day number of [t]. *)
Definition date (t : datetime) : Z := t / timedelta_seconds 86400.

(** ** Enumerations *)

Inductive OrderSide := BUY | SELL.

Inductive OrderStatus :=
  | PENDING | RISK_CHECK | APPROVED | REJECTED
  | EXECUTING | EXECUTED | FAILED | CANCELLED.

Inductive EventType :=
  | ORDER_CREATED | RISK_CHECK_STARTED | RISK_CHECK_PASSED | RISK_CHECK_FAILED
  | EXECUTION_STARTED | EXECUTION_COMPLETED | EXECUTION_FAILED | ORDER_CANCELLED.

Inductive RiskViolationType :=
  | POSITION_LIMIT | DAILY_VOLUME_LIMIT | NET_EXPOSURE_LIMIT
  | GROSS_EXPOSURE_LIMIT | KILL_SWITCH_ACTIVE.

Inductive UserRole := TRADER | RISK_MANAGER | COMPLIANCE | ADMIN.

Global Instance OrderSide_eq_dec : EqDecision OrderSide.
Proof. solve_decision. Defined.
Global Instance OrderStatus_eq_dec : EqDecision OrderStatus.
Proof. solve_decision. Defined.
Global Instance EventType_eq_dec : EqDecision EventType.
Proof. solve_decision. Defined.
Global Instance RiskViolationType_eq_dec : EqDecision RiskViolationType.
Proof. solve_decision. Defined.
Global Instance UserRole_eq_dec : EqDecision UserRole.
Proof. solve_decision. Defined.

(** The [.value] of a member of a [str] enumeration. *)
Class EnumValue (E : Type) := value : E → string.

Global Instance OrderSide_value : EnumValue OrderSide := λ s,
  match s with BUY => "BUY" | SELL => "SELL" end.

Global Instance OrderStatus_value : EnumValue OrderStatus := λ s,
  match s with
  | PENDING => "PENDING" | RISK_CHECK => "RISK_CHECK"
  | APPROVED => "APPROVED" | REJECTED => "REJECTED"
  | EXECUTING => "EXECUTING" | EXECUTED => "EXECUTED"
  | FAILED => "FAILED" | CANCELLED => "CANCELLED"
  end.

Global Instance EventType_value : EnumValue EventType := λ t,
  match t with
  | ORDER_CREATED => "ORDER_CREATED"
  | RISK_CHECK_STARTED => "RISK_CHECK_STARTED"
  | RISK_CHECK_PASSED => "RISK_CHECK_PASSED"
  | RISK_CHECK_FAILED => "RISK_CHECK_FAILED"
  | EXECUTION_STARTED => "EXECUTION_STARTED"
  | EXECUTION_COMPLETED => "EXECUTION_COMPLETED"
  | EXECUTION_FAILED => "EXECUTION_FAILED"
  | ORDER_CANCELLED => "ORDER_CANCELLED"
  end.

Global Instance RiskViolationType_value : EnumValue RiskViolationType := λ v,
  match v with
  | POSITION_LIMIT => "POSITION_LIMIT"
  | DAILY_VOLUME_LIMIT => "DAILY_VOLUME_LIMIT"
  | NET_EXPOSURE_LIMIT => "NET_EXPOSURE_LIMIT"
  | GROSS_EXPOSURE_LIMIT => "GROSS_EXPOSURE_LIMIT"
  | KILL_SWITCH_ACTIVE => "KILL_SWITCH_ACTIVE"
  end.

Global Instance UserRole_value : EnumValue UserRole := λ r,
  match r with
  | TRADER => "TRADER" | RISK_MANAGER => "RISK_MANAGER"
  | COMPLIANCE => "COMPLIANCE" | ADMIN => "ADMIN"
  end.

Definition UserRole_members : list UserRole :=
  [TRADER; RISK_MANAGER; COMPLIANCE; ADMIN].

(** ** API contracts *)

Module OrderRequest.
Record t := mk {
  symbol : string;
  side : OrderSide;
  quantity : float;
  price : float;
  strategy : string;
  client_order_id : option string
}.
End OrderRequest.

Module OrderResponse.
Record t := mk {
  order_id : string;
  status : OrderStatus;
  correlation_id : string;
  timestamp : datetime;
  message : option string
}.
End OrderResponse.

Module RiskLimitsConfig.
Record t := mk {
  max_position_size : float;
  max_daily_volume : float;
  max_net_exposure : float;
  max_gross_exposure : float;
  kill_switch_enabled : bool
}.

Definition default : t :=
  mk DEFAULT_MAX_POSITION_SIZE DEFAULT_MAX_DAILY_VOLUME
     DEFAULT_MAX_NET_EXPOSURE DEFAULT_MAX_GROSS_EXPOSURE false.
End RiskLimitsConfig.

Module RiskMetrics.
Record t := mk {
  net_exposure : float;
  gross_exposure : float;
  daily_volume : float;
  total_positions : Z;
  largest_position : float;
  kill_switch_active : bool
}.
End RiskMetrics.

(** ** Internal domain models *)

(** The shapes of [Event.payload] that the program builds. *)
Inductive Payload :=
  | PayloadOrderCreated
      (symbol side : string) (quantity price : float) (strategy : string)
  | PayloadRiskCheckStarted (order : string)
  | PayloadRiskCheckResult
      (passed : bool) (violations : list string)
      (net_exposure gross_exposure : float)
  | PayloadExecutionStarted (retry_attempt : Z)
  | PayloadExecutionCompleted
      (executed_quantity : float) (executed_price : option float)
      (retry_attempt : Z)
  | PayloadExecutionFailed (reason : option string) (retry_attempts : Z).

Module Event.
Record t := mk {
  event_id : string;
  event_type : EventType;
  correlation_id : string;
  order_id : string;
  timestamp : datetime;
  payload : Payload;
  user_id : option string
}.
End Event.

Module Order.
Record t := mk {
  order_id : string;
  correlation_id : string;
  symbol : string;
  side : OrderSide;
  quantity : float;
  price : float;
  strategy : string;
  status : OrderStatus;
  created_at : datetime;
  user_id : string;
  client_order_id : option string;
  executed_quantity : float;
  executed_price : option float;
  rejection_reason : option string;
  retry_count : Z
}.

Definition notional_value (self : t) : float :=
  (quantity self * price self)%float.

(** Attribute assignments. *)
Definition set_status (v : OrderStatus) (o : t) : t :=
  mk (order_id o) (correlation_id o) (symbol o) (side o) (quantity o)
     (price o) (strategy o) v (created_at o) (user_id o)
     (client_order_id o) (executed_quantity o) (executed_price o)
     (rejection_reason o) (retry_count o).

Definition set_executed_quantity (v : float) (o : t) : t :=
  mk (order_id o) (correlation_id o) (symbol o) (side o) (quantity o)
     (price o) (strategy o) (status o) (created_at o) (user_id o)
     (client_order_id o) v (executed_price o)
     (rejection_reason o) (retry_count o).

Definition set_executed_price (v : option float) (o : t) : t :=
  mk (order_id o) (correlation_id o) (symbol o) (side o) (quantity o)
     (price o) (strategy o) (status o) (created_at o) (user_id o)
     (client_order_id o) (executed_quantity o) v
     (rejection_reason o) (retry_count o).

Definition set_rejection_reason (v : option string) (o : t) : t :=
  mk (order_id o) (correlation_id o) (symbol o) (side o) (quantity o)
     (price o) (strategy o) (status o) (created_at o) (user_id o)
     (client_order_id o) (executed_quantity o) (executed_price o)
     v (retry_count o).

Definition set_retry_count (v : Z) (o : t) : t :=
  mk (order_id o) (correlation_id o) (symbol o) (side o) (quantity o)
     (price o) (strategy o) (status o) (created_at o) (user_id o)
     (client_order_id o) (executed_quantity o) (executed_price o)
     (rejection_reason o) v.
End Order.

Module Position.
Record t := mk {
  symbol : string;
  quantity : float;
  average_price : float;
  realized_pnl : float
}.

Definition set_quantity (v : float) (p : t) : t :=
  mk (symbol p) v (average_price p) (realized_pnl p).

Definition set_average_price (v : float) (p : t) : t :=
  mk (symbol p) (quantity p) v (realized_pnl p).
End Position.

Module RiskCheckResult.
Record t := mk {
  passed : bool;
  violations : list RiskViolationType;
  message : string
}.
End RiskCheckResult.

(** ** Program state *)

(** The address of an object in one of the object stores. *)
Abbreviation ref := nat.

Record EventStore := mkEventStore {
  events : list Event.t;
  events_by_correlation : dict (list Event.t);
  events_by_order : dict (list Event.t)
}.

Record RiskEngine := mkRiskEngine {
  config : RiskLimitsConfig.t;
  positions : dict ref;
  daily_volume : float;
  daily_volume_reset : datetime
}.

Record ExecutionEngine := mkExecutionEngine {
  orders : dict ref;
  execution_keys : gset string;
  circuit_breaker_failures : Z;
  circuit_breaker_open_until : option datetime
}.

(** Everything a call can read or write: the three module-level engine
    instances, the [Position] and [Order] objects they point to, the
    tasks handed to the event loop, and how many values have been drawn
    from each external source so far. *)
Record World := mkWorld {
  event_store : EventStore;
  risk_engine : RiskEngine;
  execution_engine : ExecutionEngine;
  position_objects : list Position.t;
  order_objects : list Order.t;
  tasks : list ref;
  uuid_draws : nat;
  clock_reads : nat;
  random_draws : nat
}.

(** External sources, indexed by the number of earlier draws. *)
Record Env := mkEnv {
  uuid4_str : nat → string;          (* str(uuid.uuid4()) *)
  utcnow : nat → datetime;           (* datetime.utcnow() *)
  random_random : nat → float;       (* random.random() *)
  sha256_hexdigest : string → string; (* hashlib.sha256(s.encode()).hexdigest() *)
  float_str : float → string         (* format(x, '') of a float *)
}.

Definition with_event_store (v : EventStore) (w : World) : World :=
  mkWorld v (risk_engine w) (execution_engine w) (position_objects w)
    (order_objects w) (tasks w) (uuid_draws w) (clock_reads w) (random_draws w).

Definition with_risk_engine (v : RiskEngine) (w : World) : World :=
  mkWorld (event_store w) v (execution_engine w) (position_objects w)
    (order_objects w) (tasks w) (uuid_draws w) (clock_reads w) (random_draws w).

Definition with_execution_engine (v : ExecutionEngine) (w : World) : World :=
  mkWorld (event_store w) (risk_engine w) v (position_objects w)
    (order_objects w) (tasks w) (uuid_draws w) (clock_reads w) (random_draws w).

Definition with_position_objects (v : list Position.t) (w : World) : World :=
  mkWorld (event_store w) (risk_engine w) (execution_engine w) v
    (order_objects w) (tasks w) (uuid_draws w) (clock_reads w) (random_draws w).

Definition with_order_objects (v : list Order.t) (w : World) : World :=
  mkWorld (event_store w) (risk_engine w) (execution_engine w)
    (position_objects w) v (tasks w) (uuid_draws w) (clock_reads w)
    (random_draws w).

Definition with_tasks (v : list ref) (w : World) : World :=
  mkWorld (event_store w) (risk_engine w) (execution_engine w)
    (position_objects w) (order_objects w) v (uuid_draws w) (clock_reads w)
    (random_draws w).

Definition with_uuid_draws (v : nat) (w : World) : World :=
  mkWorld (event_store w) (risk_engine w) (execution_engine w)
    (position_objects w) (order_objects w) (tasks w) v (clock_reads w)
    (random_draws w).

Definition with_clock_reads (v : nat) (w : World) : World :=
  mkWorld (event_store w) (risk_engine w) (execution_engine w)
    (position_objects w) (order_objects w) (tasks w) (uuid_draws w) v
    (random_draws w).

Definition with_random_draws (v : nat) (w : World) : World :=
  mkWorld (event_store w) (risk_engine w) (execution_engine w)
    (position_objects w) (order_objects w) (tasks w) (uuid_draws w)
    (clock_reads w) v.

Definition with_config (v : RiskLimitsConfig.t) (r : RiskEngine) : RiskEngine :=
  mkRiskEngine v (positions r) (daily_volume r) (daily_volume_reset r).

Definition with_positions (v : dict ref) (r : RiskEngine) : RiskEngine :=
  mkRiskEngine (config r) v (daily_volume r) (daily_volume_reset r).

Definition with_daily_volume (v : float) (r : RiskEngine) : RiskEngine :=
  mkRiskEngine (config r) (positions r) v (daily_volume_reset r).

Definition with_daily_volume_reset (v : datetime) (r : RiskEngine) : RiskEngine :=
  mkRiskEngine (config r) (positions r) (daily_volume r) v.

Definition with_orders (v : dict ref) (x : ExecutionEngine) : ExecutionEngine :=
  mkExecutionEngine v (execution_keys x) (circuit_breaker_failures x)
    (circuit_breaker_open_until x).

Definition with_execution_keys (v : gset string) (x : ExecutionEngine)
  : ExecutionEngine :=
  mkExecutionEngine (orders x) v (circuit_breaker_failures x)
    (circuit_breaker_open_until x).

Definition with_circuit_breaker_failures (v : Z) (x : ExecutionEngine)
  : ExecutionEngine :=
  mkExecutionEngine (orders x) (execution_keys x) v
    (circuit_breaker_open_until x).

Definition with_circuit_breaker_open_until (v : option datetime)
    (x : ExecutionEngine) : ExecutionEngine :=
  mkExecutionEngine (orders x) (execution_keys x)
    (circuit_breaker_failures x) v.

(** ** Exceptions and the program monad *)

Inductive exn :=
  | HTTPException (status_code : Z) (detail : string)
  | ValueError
  | TypeError
  | KeyError (key : string)
  | ZeroDivisionError
  | Exception (msg : string)
  (** not a Python exception: reading an address that holds no object,
      which no run of the program does *)
  | Dangling.

Inductive outcome (A : Type) :=
  | Ok (a : A)
  | Raise (e : exn).
Arguments Ok {A} a.
Arguments Raise {A} e.

Definition M (A : Type) : Type := World → outcome A * World.

Definition ret {A} (a : A) : M A := λ w, (Ok a, w).

Definition bind {A B} (m : M A) (k : A → M B) : M B := λ w,
  match m w with
  | (Ok a, w') => k a w'
  | (Raise e, w') => (Raise e, w')
  end.

Definition raise {A} (e : exn) : M A := λ w, (Raise e, w).

Definition gets {A} (f : World → A) : M A := λ w, (Ok (f w), w).

Definition modify (f : World → World) : M unit := λ w, (Ok tt, f w).

(** [try: body / except Exception: handler]; writes made by [body] before
    it raised stay in place. *)
Definition try_except {A} (body : M A) (handler : exn → M A) : M A := λ w,
  match body w with
  | (Ok a, w') => (Ok a, w')
  | (Raise Dangling, w') => (Raise Dangling, w')
  | (Raise e, w') => handler e w'
  end.

Declare Scope prog_scope.
Delimit Scope prog_scope with prog.
Notation "'let*' x ':=' m 'in' k" := (bind m (λ x, k))
  (at level 10, x name, m at level 100, k at level 200) : prog_scope.
Notation "m ';;' k" := (bind m (λ _, k))
  (at level 100, k at level 200, right associativity) : prog_scope.
Local Open Scope prog_scope.

Definition when (b : bool) (m : M unit) : M unit := if b then m else ret tt.

(** The final store and the result of running [m] from [w]. *)
Definition exec {A} (m : M A) (w : World) : World := (m w).2.
Definition eval {A} (m : M A) (w : World) : outcome A := (m w).1.

(** ** Objects *)

Definition new_position (p : Position.t) : M ref := λ w,
  (Ok (length (position_objects w)),
   with_position_objects (position_objects w ++ [p]) w).

Definition read_position (l : ref) : M Position.t := λ w,
  match position_objects w !! l with
  | Some p => (Ok p, w)
  | None => (Raise Dangling, w)
  end.

(** [p.attr = v] for the [Position] at [l]. *)
Definition write_position (l : ref) (f : Position.t → Position.t) : M unit :=
  modify (λ w, with_position_objects (alter f l (position_objects w)) w).

Definition new_order (o : Order.t) : M ref := λ w,
  (Ok (length (order_objects w)),
   with_order_objects (order_objects w ++ [o]) w).

Definition read_order (l : ref) : M Order.t := λ w,
  match order_objects w !! l with
  | Some o => (Ok o, w)
  | None => (Raise Dangling, w)
  end.

Definition write_order (l : ref) (f : Order.t → Order.t) : M unit :=
  modify (λ w, with_order_objects (alter f l (order_objects w)) w).

(** [d[k]] *)
Definition dict_getitem {V} (d : dict V) (k : string) : M V :=
  match dict_get d k with
  | Some v => ret v
  | None => raise (KeyError k)
  end.

Fixpoint mapM {A B} (f : A → M B) (xs : list A) : M (list B) :=
  match xs with
  | [] => ret []
  | x :: xs' => let* y := f x in let* ys := mapM f xs' in ret (y :: ys)
  end.

(** Python's comparisons and division on [float]. *)
Definition float_gt (a b : float) : bool := (b <? a)%float.
Definition float_ne (a b : float) : bool := negb (a =? b)%float.

Definition float_div (a b : float) : M float :=
  if (b =? 0)%float then raise ZeroDivisionError else ret (a / b)%float.

(** [await asyncio.sleep(...)]: no effect on the store. *)
Definition asyncio_sleep : M unit := ret tt.

(** [asyncio.create_task(self._execute_order(order))] *)
Definition asyncio_create_task (order : ref) : M unit :=
  modify (λ w, with_tasks (tasks w ++ [order]) w).

Section Program.
Context (env : Env).

(** ** External sources *)

Definition uuid_uuid4 : M string := λ w,
  (Ok (uuid4_str env (uuid_draws w)), with_uuid_draws (S (uuid_draws w)) w).

Definition datetime_utcnow : M datetime := λ w,
  (Ok (utcnow env (clock_reads w)), with_clock_reads (S (clock_reads w)) w).

Definition random : M float := λ w,
  (Ok (random_random env (random_draws w)),
   with_random_draws (S (random_draws w)) w).

(** [random.uniform(a, b)] is [a + (b - a) * random()]. *)
Definition uniform (a b : float) : M float :=
  let* r := random in ret (a + (b - a) * r)%float.

(** ** Event store *)

(** [index[key].append(event)] on a [defaultdict(list)] *)
Definition defaultdict_append (index : dict (list Event.t)) (key : string)
    (event : Event.t) : dict (list Event.t) :=
  dict_set index key (default [] (dict_get index key) ++ [event]).

Definition append (event : Event.t) : M unit :=
  modify (λ w,
    let s := event_store w in
    with_event_store
      (mkEventStore
         (events s ++ [event])
         (defaultdict_append (events_by_correlation s)
            (Event.correlation_id event) event)
         (defaultdict_append (events_by_order s) (Event.order_id event) event))
      w).

Definition get_by_correlation (correlation_id : string) : M (list Event.t) :=
  gets (λ w,
    default [] (dict_get (events_by_correlation (event_store w)) correlation_id)).

Definition get_by_order (order_id : string) : M (list Event.t) :=
  gets (λ w, default [] (dict_get (events_by_order (event_store w)) order_id)).

(** [Event(event_id=str(uuid.uuid4()), ..., timestamp=datetime.utcnow(), ...)]
    followed by [event_store.append]. *)
Definition emit (event_type : EventType) (correlation_id order_id : string)
    (payload : Payload) (user_id : string) : M unit :=
  let* event_id := uuid_uuid4 in
  let* timestamp := datetime_utcnow in
  append (Event.mk event_id event_type correlation_id order_id timestamp
            payload (Some user_id)).

(** ** Risk engine *)

Definition _reset_daily_volume_if_needed : M unit :=
  let* now := datetime_utcnow in
  let* reset := gets (λ w, daily_volume_reset (risk_engine w)) in
  when (date now >? date reset)
    (modify (λ w,
       with_risk_engine
         (with_daily_volume_reset now
            (with_daily_volume 0%float (risk_engine w))) w)).

Definition signed_quantity (side : OrderSide) (q : float) : float :=
  match side with BUY => q | SELL => (- q)%float end.

Definition _calculate_projected_positions (order : Order.t) : M (dict ref) :=
  (* projected = self.positions.copy(): a new dict, the same objects *)
  let* projected := gets (λ w, positions (risk_engine w)) in
  let* projected :=
    (if negb (dict_contains projected (Order.symbol order)) then
       let* fresh :=
         new_position (Position.mk (Order.symbol order) 0%float 0%float 0%float) in
       ret (dict_set projected (Order.symbol order) fresh)
     else ret projected) in
  let* position_ref := dict_getitem projected (Order.symbol order) in
  let* position := read_position position_ref in
  let quantity_delta := signed_quantity (Order.side order) (Order.quantity order) in
  let* target := dict_getitem projected (Order.symbol order) in
  write_position target
    (Position.set_quantity (Position.quantity position + quantity_delta)%float) ;;
  ret projected.

Definition position_value (p : Position.t) : float :=
  (Position.quantity p * Position.average_price p)%float.

Definition _calculate_net_exposure (positions : dict ref) : M float :=
  let* ps := mapM read_position (dict_values positions) in
  ret (py_sum (position_value <$> ps)).

Definition _calculate_gross_exposure (positions : dict ref) : M float :=
  let* ps := mapM read_position (dict_values positions) in
  ret (py_sum ((λ p, PrimFloat.abs (position_value p)) <$> ps)).

Definition KILL_SWITCH_MESSAGE : string :=
  "Kill switch is active - all trading halted".

Definition check_order (order : Order.t) (correlation_id : string)
  : M RiskCheckResult.t :=
  _reset_daily_volume_if_needed ;;
  emit RISK_CHECK_STARTED correlation_id (Order.order_id order)
    (PayloadRiskCheckStarted (Order.order_id order)) (Order.user_id order) ;;
  let violations : list RiskViolationType := [] in
  let* config := gets (λ w, config (risk_engine w)) in
  if RiskLimitsConfig.kill_switch_enabled config then
    let violations := violations ++ [KILL_SWITCH_ACTIVE] in
    ret (RiskCheckResult.mk false violations KILL_SWITCH_MESSAGE)
  else
    let notional := Order.notional_value order in
    let violations :=
      if float_gt notional (RiskLimitsConfig.max_position_size config)
      then violations ++ [POSITION_LIMIT] else violations in
    let* daily_volume := gets (λ w, daily_volume (risk_engine w)) in
    let violations :=
      if float_gt (daily_volume + notional)%float
           (RiskLimitsConfig.max_daily_volume config)
      then violations ++ [DAILY_VOLUME_LIMIT] else violations in
    let* projected_positions := _calculate_projected_positions order in
    let* net_exposure := _calculate_net_exposure projected_positions in
    let* gross_exposure := _calculate_gross_exposure projected_positions in
    let violations :=
      if float_gt (PrimFloat.abs net_exposure)
           (RiskLimitsConfig.max_net_exposure config)
      then violations ++ [NET_EXPOSURE_LIMIT] else violations in
    let violations :=
      if float_gt gross_exposure (RiskLimitsConfig.max_gross_exposure config)
      then violations ++ [GROSS_EXPOSURE_LIMIT] else violations in
    let passed := bool_decide (length violations = 0%nat) in
    let event_type := if passed then RISK_CHECK_PASSED else RISK_CHECK_FAILED in
    emit event_type correlation_id (Order.order_id order)
      (PayloadRiskCheckResult passed (value <$> violations)
         net_exposure gross_exposure)
      (Order.user_id order) ;;
    let message :=
      if passed then "Risk check passed"
      else "Risk violations: " +:+ join ", " (value <$> violations) in
    ret (RiskCheckResult.mk passed violations message).

Definition update_position (order : Order.t) : M unit :=
  let* known := gets (λ w, dict_contains (positions (risk_engine w))
                             (Order.symbol order)) in
  when (negb known)
    (let* fresh :=
       new_position (Position.mk (Order.symbol order) 0%float 0%float 0%float) in
     modify (λ w,
       with_risk_engine
         (with_positions
            (dict_set (positions (risk_engine w)) (Order.symbol order) fresh)
            (risk_engine w)) w)) ;;
  let* held := gets (λ w, positions (risk_engine w)) in
  let* position_ref := dict_getitem held (Order.symbol order) in
  let* position := read_position position_ref in
  let quantity_delta :=
    signed_quantity (Order.side order) (Order.executed_quantity order) in
  (if float_ne (Position.quantity position + quantity_delta)%float 0%float then
     let* executed_price :=
       (match Order.executed_price order with
        | Some px => ret px
        | None => raise TypeError
        end) in
     let total_cost :=
       (Position.quantity position * Position.average_price position
        + quantity_delta * executed_price)%float in
     write_position position_ref
       (λ p, Position.set_quantity (Position.quantity p + quantity_delta)%float p) ;;
     let* position := read_position position_ref in
     let* average := float_div total_cost (Position.quantity position) in
     write_position position_ref (Position.set_average_price average)
   else
     write_position position_ref (Position.set_quantity 0%float) ;;
     write_position position_ref (Position.set_average_price 0%float)) ;;
  modify (λ w,
    with_risk_engine
      (with_daily_volume
         (daily_volume (risk_engine w) + Order.notional_value order)%float
         (risk_engine w)) w).

(** [max(xs, default=d)] *)
Definition py_max (xs : list float) (d : float) : float :=
  match xs with
  | [] => d
  | x :: xs' => fold_left (λ m y, if float_gt y m then y else m) xs' x
  end.

Definition get_metrics : M RiskMetrics.t :=
  _reset_daily_volume_if_needed ;;
  let* held := gets (λ w, positions (risk_engine w)) in
  let* net_exposure := _calculate_net_exposure held in
  let* gross_exposure := _calculate_gross_exposure held in
  let* ps := mapM read_position (dict_values held) in
  let largest_position :=
    py_max ((λ p, PrimFloat.abs (position_value p)) <$> ps) 0%float in
  let* r := gets risk_engine in
  ret (RiskMetrics.mk net_exposure gross_exposure (daily_volume r)
         (Z.of_nat (length held)) largest_position
         (RiskLimitsConfig.kill_switch_enabled (config r))).

(** ** Execution engine *)

(** [str(x)] of an [Optional[str]] inside an f-string *)
Definition optional_str (x : option string) : string := default "None" x.

Definition key_data (user_id symbol : string) (side : OrderSide)
    (quantity price : float) (client_order_id : option string) : string :=
  user_id +:+ ":" +:+ symbol +:+ ":" +:+ value side +:+ ":"
  +:+ float_str env quantity +:+ ":" +:+ float_str env price +:+ ":"
  +:+ optional_str client_order_id.

Definition _generate_execution_key (request : OrderRequest.t) (user_id : string)
  : string :=
  sha256_hexdigest env
    (key_data user_id (OrderRequest.symbol request) (OrderRequest.side request)
       (OrderRequest.quantity request) (OrderRequest.price request)
       (OrderRequest.client_order_id request)).

Definition DUPLICATE_SUBMISSION : exn :=
  HTTPException 409 "Duplicate order submission detected".

Definition submit_order (request : OrderRequest.t) (user_id : string)
  : M OrderResponse.t :=
  let* correlation_id := uuid_uuid4 in
  let* order_id := uuid_uuid4 in
  let execution_key := _generate_execution_key request user_id in
  let* seen := gets (λ w, execution_keys (execution_engine w)) in
  (if bool_decide (execution_key ∈ seen) then raise DUPLICATE_SUBMISSION
   else modify (λ w,
          with_execution_engine
            (with_execution_keys
               ({[execution_key]} ∪ execution_keys (execution_engine w))
               (execution_engine w)) w)) ;;
  let* created_at := datetime_utcnow in
  let* order :=
    new_order
      (Order.mk order_id correlation_id (OrderRequest.symbol request)
         (OrderRequest.side request) (OrderRequest.quantity request)
         (OrderRequest.price request) (OrderRequest.strategy request)
         PENDING created_at user_id (OrderRequest.client_order_id request)
         0%float None None 0) in
  modify (λ w,
    with_execution_engine
      (with_orders (dict_set (orders (execution_engine w)) order_id order)
         (execution_engine w)) w) ;;
  let* o := read_order order in
  emit ORDER_CREATED correlation_id order_id
    (PayloadOrderCreated (Order.symbol o) (value (Order.side o))
       (Order.quantity o) (Order.price o) (Order.strategy o))
    user_id ;;
  write_order order (Order.set_status RISK_CHECK) ;;
  let* o := read_order order in
  let* risk_result := check_order o correlation_id in
  if negb (RiskCheckResult.passed risk_result) then
    write_order order (Order.set_status REJECTED) ;;
    write_order order
      (Order.set_rejection_reason (Some (RiskCheckResult.message risk_result))) ;;
    let* timestamp := datetime_utcnow in
    ret (OrderResponse.mk order_id REJECTED correlation_id timestamp
           (Some (RiskCheckResult.message risk_result)))
  else
    write_order order (Order.set_status APPROVED) ;;
    asyncio_create_task order ;;
    let* timestamp := datetime_utcnow in
    ret (OrderResponse.mk order_id APPROVED correlation_id timestamp
           (Some "Order approved and submitted for execution")).

Definition EXECUTION_FAILED_REASON : string :=
  "Execution failed after " +:+ pretty MAX_RETRY_ATTEMPTS +:+ " attempts".

(** The body of the [try] block of one attempt: it either returns from
    [_execute_order] or raises. *)
Definition attempt_execution (order : ref) (attempt : Z) : M unit :=
  asyncio_sleep ;;
  let* r := random in
  if (r <? 0.9)%float then
    let* o := read_order order in
    write_order order (Order.set_executed_quantity (Order.quantity o)) ;;
    let* u := uniform (-0.001)%float 0.001%float in
    write_order order
      (Order.set_executed_price (Some (Order.price o * (1 + u))%float)) ;;
    write_order order (Order.set_status EXECUTED) ;;
    let* o := read_order order in
    update_position o ;;
    let* o := read_order order in
    emit EXECUTION_COMPLETED (Order.correlation_id o) (Order.order_id o)
      (PayloadExecutionCompleted (Order.executed_quantity o)
         (Order.executed_price o) attempt)
      (Order.user_id o)
  else raise (Exception "Simulated market rejection").

(** The [except Exception] block of one attempt. *)
Definition attempt_failed (order : ref) (attempt : Z) : M unit :=
  write_order order (λ o, Order.set_retry_count (Order.retry_count o + 1) o) ;;
  if attempt <? MAX_RETRY_ATTEMPTS - 1 then asyncio_sleep
  else
    write_order order (Order.set_status FAILED) ;;
    write_order order (Order.set_rejection_reason (Some EXECUTION_FAILED_REASON)) ;;
    modify (λ w,
      with_execution_engine
        (with_circuit_breaker_failures
           (circuit_breaker_failures (execution_engine w) + 1)
           (execution_engine w)) w) ;;
    let* failures := gets (λ w, circuit_breaker_failures (execution_engine w)) in
    when (failures >=? CIRCUIT_BREAKER_THRESHOLD)
      (let* now := datetime_utcnow in
       modify (λ w,
         with_execution_engine
           (with_circuit_breaker_open_until
              (Some (now + timedelta_seconds CIRCUIT_BREAKER_TIMEOUT))
              (execution_engine w)) w)) ;;
    let* o := read_order order in
    emit EXECUTION_FAILED (Order.correlation_id o) (Order.order_id o)
      (PayloadExecutionFailed (Order.rejection_reason o) (Order.retry_count o))
      (Order.user_id o).

(** One turn of the loop: the [try] block and its [except Exception] handler;
    [true] when the function returned from inside the [try] block. *)
Definition attempt_block (order : ref) (attempt : Z) : M bool :=
  try_except (attempt_execution order attempt ;; ret true)
    (λ _, attempt_failed order attempt ;; ret false).

(** [for attempt in range(MAX_RETRY_ATTEMPTS)] *)
Fixpoint retry_loop (order : ref) (attempts : list Z) : M unit :=
  match attempts with
  | [] => ret tt
  | attempt :: rest =>
      let* returned := attempt_block order attempt in
      if returned : bool then ret tt else retry_loop order rest
  end.

(** The circuit-breaker check at the head of [_execute_order]; [true] when
    the order was blocked and the function returns. *)
Definition circuit_breaker_check (order : ref) : M bool :=
  let* open_until :=
    gets (λ w, circuit_breaker_open_until (execution_engine w)) in
  match open_until with
  | Some until =>
      let* now := datetime_utcnow in
      if now <? until then
        write_order order (Order.set_status FAILED) ;;
        write_order order (Order.set_rejection_reason (Some "Circuit breaker open")) ;;
        ret true
      else
        modify (λ w,
          with_execution_engine
            (with_circuit_breaker_open_until None (execution_engine w)) w) ;;
        modify (λ w,
          with_execution_engine
            (with_circuit_breaker_failures 0 (execution_engine w)) w) ;;
        ret false
  | None => ret false
  end.

(** [_execute_order] past the circuit-breaker check. *)
Definition execute_admitted (order : ref) : M unit :=
  write_order order (Order.set_status EXECUTING) ;;
  let* o := read_order order in
  emit EXECUTION_STARTED (Order.correlation_id o) (Order.order_id o)
    (PayloadExecutionStarted (Order.retry_count o)) (Order.user_id o) ;;
  retry_loop order (range MAX_RETRY_ATTEMPTS).

Definition _execute_order (order : ref) : M unit :=
  let* blocked := circuit_breaker_check order in
  if blocked : bool then ret tt else execute_admitted order.

End Program.

(** ** Authentication and authorisation *)

(** [UserRole(x)]: the member whose value is [x]. *)
Definition UserRole_of_value (x : option string) : outcome UserRole :=
  match x with
  | Some s =>
      match list_find (λ r, value r = s) UserRole_members with
      | Some (_, r) => Ok r
      | None => Raise ValueError
      end
  | None => Raise ValueError
  end.

Definition role_hierarchy : list (UserRole * Z) :=
  [(TRADER, 1); (RISK_MANAGER, 2); (COMPLIANCE, 3); (ADMIN, 4)].

(** [role_hierarchy.get(role, d)] *)
Definition role_hierarchy_get (role : UserRole) (d : Z) : Z :=
  match list_find (λ kv, kv.1 = role) role_hierarchy with
  | Some (_, kv) => kv.2
  | None => d
  end.

Definition check_permission (user_role : option string)
    (required_role : UserRole) : outcome bool :=
  match UserRole_of_value user_role with
  | Ok role =>
      let user_level := role_hierarchy_get role 0 in
      let required_level := role_hierarchy_get required_role 0 in
      Ok (user_level >=? required_level)
  | Raise e => Raise e
  end.

(** [require_role(required_role)] applied to a verified token payload. *)
Definition require_role (required_role : UserRole)
    (current_user : dict string) : outcome (dict string) :=
  let user_role := dict_get current_user "role" in
  match check_permission user_role required_role with
  | Ok true => Ok current_user
  | Ok false =>
      Raise (HTTPException 403
               ("Insufficient permissions. Required: " +:+ value required_role))
  | Raise e => Raise e
  end.

(** * Specification-side definitions *)

(** ** Positions as the risk engine holds them *)

(** [self.positions.get(symbol)], dereferenced. *)
Definition position_of (w : World) (symbol : string) : option Position.t :=
  l ← dict_get (positions (risk_engine w)) symbol; position_objects w !! l.

(** The entries of a dict of references, each with the object it designates. *)
Fixpoint deref_all (objects : list Position.t) (d : dict ref)
  : list (string * Position.t) :=
  match d with
  | [] => []
  | (s, l) :: d' =>
      match objects !! l with
      | Some p => (s, p) :: deref_all objects d'
      | None => deref_all objects d'
      end
  end.

Definition held_positions (w : World) : list (string * Position.t) :=
  deref_all (position_objects w) (positions (risk_engine w)).

(** The positions dict is well formed: one entry per symbol, one object per
    entry, every reference live. *)
Record positions_wf (w : World) : Prop := {
  wf_keys : NoDup (dict_keys (positions (risk_engine w)));
  wf_refs : NoDup (dict_values (positions (risk_engine w)));
  wf_live : Forall (λ l, l < length (position_objects w))%nat
              (dict_values (positions (risk_engine w)))
}.

(** The signed quantity of an order: [+quantity] for BUY, [-quantity] for SELL. *)
Definition order_delta (order : Order.t) : float :=
  match Order.side order with
  | BUY => Order.quantity order
  | SELL => (- Order.quantity order)%float
  end.

(** Adding [delta] to the quantity held in [symbol]. *)
Definition add_to_symbol (symbol : string) (delta : float)
    (entry : string * Position.t) : string * Position.t :=
  if decide (entry.1 = symbol)
  then (entry.1,
        Position.set_quantity (Position.quantity entry.2 + delta)%float entry.2)
  else entry.

(** Following the specification's words: the order's signed quantity is added
    to its symbol, other symbols are unchanged, every symbol keeps its current
    average price, and a symbol not held yet enters at price 0. *)
Definition spec_projection (held : list (string * Position.t))
    (symbol : string) (delta : float) : list (string * Position.t) :=
  if bool_decide (symbol ∈ held.*1) then add_to_symbol symbol delta <$> held
  else held ++ [(symbol, Position.mk symbol (0 + delta)%float 0%float 0%float)].

(** Net exposure: the signed sum of quantity times average price;
    gross exposure: the sum of its magnitudes. *)
Definition spec_net_exposure (ps : list (string * Position.t)) : float :=
  py_sum ((λ sp, (Position.quantity sp.2 * Position.average_price sp.2)%float) <$> ps).

Definition spec_gross_exposure (ps : list (string * Position.t)) : float :=
  py_sum ((λ sp, PrimFloat.abs
                   (Position.quantity sp.2 * Position.average_price sp.2)%float)
            <$> ps).

(** ** Roles *)

(** The place of a role in the hierarchy TRADER < RISK_MANAGER < COMPLIANCE < ADMIN. *)
Definition role_level (r : UserRole) : Z :=
  match r with TRADER => 1 | RISK_MANAGER => 2 | COMPLIANCE => 3 | ADMIN => 4 end.

(** ** The stores that single steps leave behind *)

(** What [emit] leaves behind: one more event, one more identifier drawn,
    one more reading of the clock. *)
Definition emitted (env : Env) (event_type : EventType)
    (correlation_id order_id : string) (payload : Payload) (user_id : string)
    (w : World) : World :=
  let event :=
    Event.mk (uuid4_str env (uuid_draws w)) event_type correlation_id order_id
      (utcnow env (clock_reads w)) payload (Some user_id) in
  let s := event_store w in
  mkWorld
    (mkEventStore (events s ++ [event])
       (defaultdict_append (events_by_correlation s) correlation_id event)
       (defaultdict_append (events_by_order s) order_id event))
    (risk_engine w) (execution_engine w) (position_objects w)
    (order_objects w) (tasks w) (S (uuid_draws w)) (S (clock_reads w))
    (random_draws w).

(** What the daily-volume reset leaves behind. *)
Definition volume_checked (env : Env) (w : World) : World :=
  let now := utcnow env (clock_reads w) in
  let w' := with_clock_reads (S (clock_reads w)) w in
  if date now >? date (daily_volume_reset (risk_engine w)) then
    with_risk_engine
      (with_daily_volume_reset now (with_daily_volume 0%float (risk_engine w))) w'
  else w'.

(** ** Frames *)

(** A relation between the store before and after that every step of a
    program maintains. *)
Definition keeps (R : relation World) {A} (m : M A) : Prop := ∀ w, R w (m w).2.

(** The idempotency fingerprint of a stored order. *)
Definition order_key (env : Env) (o : Order.t) : string :=
  sha256_hexdigest env
    (key_data env (Order.user_id o) (Order.symbol o) (Order.side o)
       (Order.quantity o) (Order.price o) (Order.client_order_id o)).

(** The order book is kept: the order table, the idempotency set and every
    order's fingerprint stay as they are, and no identifier is returned to
    the supply. *)
Definition order_book_kept (env : Env) (w w' : World) : Prop :=
  orders (execution_engine w') = orders (execution_engine w)
  ∧ execution_keys (execution_engine w') = execution_keys (execution_engine w)
  ∧ order_key env <$> order_objects w' = order_key env <$> order_objects w
  ∧ (uuid_draws w ≤ uuid_draws w')%nat.

(** ** Runs of the system *)

(** Module load: [RiskEngine.__init__] reads the clock once and
    [AuthManager.__init__] draws three identifiers. *)
Definition startup (env : Env) : World :=
  mkWorld (mkEventStore [] [] [])
    (mkRiskEngine RiskLimitsConfig.default [] 0%float (utcnow env 0))
    (mkExecutionEngine [] ∅ 0 None) [] [] [] 3 1 0.

(** What can happen to the engines: a submission, the event loop running
    [_execute_order] on an order, a new limits configuration (which is also
    how the kill switch is toggled), a metrics request. *)
Inductive Op :=
  | OpSubmit (request : OrderRequest.t) (user_id : string)
  | OpExecute (order : ref)
  | OpSetConfig (limits : RiskLimitsConfig.t)
  | OpGetMetrics.

Definition run_op (env : Env) (op : Op) (w : World) : World :=
  match op with
  | OpSubmit request user_id => exec (submit_order env request user_id) w
  | OpExecute order => exec (_execute_order env order) w
  | OpSetConfig limits => with_risk_engine (with_config limits (risk_engine w)) w
  | OpGetMetrics => exec (get_metrics env) w
  end.

Definition run_ops (env : Env) (ops : list Op) (w : World) : World :=
  fold_left (λ w op, run_op env op w) ops w.

(** ** The order book *)



(** The order as [submit_order] creates it. *)
Definition created_order (env : Env) (request : OrderRequest.t) (user_id : string)
    (w : World) : Order.t :=
  Order.mk (uuid4_str env (S (uuid_draws w))) (uuid4_str env (uuid_draws w))
    (OrderRequest.symbol request) (OrderRequest.side request)
    (OrderRequest.quantity request) (OrderRequest.price request)
    (OrderRequest.strategy request) PENDING (utcnow env (clock_reads w)) user_id
    (OrderRequest.client_order_id request) 0%float None None 0.

(** The world in which the risk check of a first-time submission starts. *)
Definition accepted (env : Env) (request : OrderRequest.t) (user_id : string)
    (w : World) : World :=
  let o := created_order env request user_id w in
  let x := execution_engine w in
  let w1 :=
    mkWorld (event_store w) (risk_engine w)
      (mkExecutionEngine
         (dict_set (orders x) (Order.order_id o) (length (order_objects w)))
         ({[_generate_execution_key env request user_id]} ∪ execution_keys x)
         (circuit_breaker_failures x) (circuit_breaker_open_until x))
      (position_objects w) (order_objects w ++ [o]) (tasks w)
      (S (S (uuid_draws w))) (S (clock_reads w)) (random_draws w) in
  with_order_objects
    (alter (Order.set_status RISK_CHECK) (length (order_objects w))
       (order_objects w ++ [o]))
    (emitted env ORDER_CREATED (Order.correlation_id o) (Order.order_id o)
       (PayloadOrderCreated (Order.symbol o) (value (Order.side o))
          (Order.quantity o) (Order.price o) (Order.strategy o))
       user_id w1).

(** The world a submission leaves once the risk check has returned [r] in [w]. *)
Definition concluded (env : Env) (order : ref) (r : RiskCheckResult.t) (w : World)
  : World :=
  with_clock_reads (S (clock_reads w))
    (if RiskCheckResult.passed r then
       with_tasks (tasks w ++ [order])
         (with_order_objects
            (alter (Order.set_status APPROVED) order (order_objects w)) w)
     else
       with_order_objects
         (alter (Order.set_rejection_reason (Some (RiskCheckResult.message r)))
            order
            (alter (Order.set_status REJECTED) order (order_objects w))) w).

Definition response (env : Env) (request : OrderRequest.t) (user_id : string)
    (w : World) (r : RiskCheckResult.t) (w' : World) : OrderResponse.t :=
  let o := created_order env request user_id w in
  OrderResponse.mk (Order.order_id o)
    (if RiskCheckResult.passed r then APPROVED else REJECTED)
    (Order.correlation_id o) (utcnow env (clock_reads w'))
    (Some (if RiskCheckResult.passed r
           then "Order approved and submitted for execution"
           else RiskCheckResult.message r)).



(** ** Background execution *)

(** The world a blocked execution leaves. *)
Definition blocked (order : ref) (w : World) : World :=
  with_order_objects
    (alter (Order.set_rejection_reason (Some "Circuit breaker open")) order
       (alter (Order.set_status FAILED) order (order_objects w)))
    (with_clock_reads (S (clock_reads w)) w).


(** The breaker is kept: failure counter and opening time stay as they are. *)
Definition breaker_kept (w w' : World) : Prop :=
  circuit_breaker_failures (execution_engine w')
    = circuit_breaker_failures (execution_engine w)
  ∧ circuit_breaker_open_until (execution_engine w')
    = circuit_breaker_open_until (execution_engine w).

(** Order objects are kept. *)
Definition orders_kept (w w' : World) : Prop := order_objects w' = order_objects w.



(** Well-formed positions stay well formed. *)
Definition positions_wf_kept (w w' : World) : Prop :=
  positions_wf w → positions_wf w'.

(** The positions dict is kept and no position object is lost. *)
Definition positions_kept (w w' : World) : Prop :=
  positions (risk_engine w') = positions (risk_engine w)
  ∧ (length (position_objects w) ≤ length (position_objects w'))%nat.

(** ** Claims as worded *)

(** The claim C9 as it is worded: the message of a failed check is the
    violation names joined with ", ". *)
Definition bare_names_message (env : Env) (w : World) (order : Order.t)
    (correlation_id : string) : Prop :=
  ∀ r, eval (check_order env order correlation_id) w = Ok r →
    RiskCheckResult.passed r = false →
    RiskCheckResult.message r = join ", " (value <$> RiskCheckResult.violations r).

(** * Scenarios *)

(** A binary rendering of a float: exact and deterministic, standing in for
    Python's shortest decimal one. *)
Definition float_repr (x : float) : string :=
  match Prim2SF x with
  | S754_zero s => if s then "-0.0" else "0.0"
  | S754_infinity s => if s then "-inf" else "inf"
  | S754_nan => "nan"
  | S754_finite s m e =>
      (if s then "-" else "") +:+ pretty (Zpos m) +:+ "p" +:+ pretty e
  end.

(** Identifiers "id-0", "id-1", ...; the digest of a string is the string
    itself. *)
Definition scenario_env (clock : nat → datetime) (draws : nat → float) : Env :=
  mkEnv (λ n, "id-" +:+ pretty n) clock draws (λ s, s) float_repr.

(** One second per reading of the clock, all on the first day. *)
Definition seconds (n : nat) : datetime := Z.of_nat n * 1000000.

(** Every attempt succeeds and fills at the limit price. *)
Definition calm_env : Env := scenario_env seconds (λ _, 0.5%float).

Definition request (symbol : string) (side : OrderSide) (quantity price : float)
    (client_order_id : string) : OrderRequest.t :=
  OrderRequest.mk symbol side quantity price "test" (Some client_order_id).

(** A trader bought 100 AAPL at 150 and the order was filled. *)
Definition holding_aapl : World :=
  run_ops calm_env
    [OpSubmit (request "AAPL" BUY 100 150 "first") "trader"; OpExecute 0%nat]
    (startup calm_env).

(** An order of 10000 AAPL at 150: notional 1.5 million, over the default
    position limit of one million. *)
Definition oversized : Order.t :=
  Order.mk "order-2" "corr-2" "AAPL" BUY 10000 150 "test" RISK_CHECK 0 "trader"
    None 0 None None 0.

(** The risk manager has switched the kill switch on. *)
Definition halted : World :=
  run_ops calm_env
    [OpSetConfig (RiskLimitsConfig.mk 1000000 10000000 5000000 15000000 true)]
    (startup calm_env).

Definition small : Order.t :=
  Order.mk "order-1" "corr-1" "GOOGL" BUY 10 100 "test" RISK_CHECK 0 "trader"
    None 0 None None 0.

(** The first fifteen readings of the clock fall on the first day, all later
    ones on the second. *)
Definition overnight_clock (n : nat) : datetime :=
  if (n <? 15)%nat then seconds n else timedelta_seconds 86400 + seconds n.

Definition overnight_env : Env := scenario_env overnight_clock (λ _, 0.5%float).

(** On the first day one order was filled (daily volume 15000) and a second
    one approved; midnight passes before the second is executed. *)
Definition before_midnight : World :=
  run_ops overnight_env
    [OpSubmit (request "AAPL" BUY 100 150 "first") "trader"; OpExecute 0%nat;
     OpSubmit (request "AAPL" BUY 10 150 "second") "trader"]
    (startup overnight_env).

(** The second order as the execution engine hands it to [update_position]. *)
Definition second_fill : Order.t :=
  Order.mk "id-11" "id-10" "AAPL" BUY 10 150 "test" EXECUTED (seconds 9) "trader"
    (Some "second") 10 (Some 150%float) None 0.










(** * Verification *)

(** ** Dictionaries *)
Lemma dict_get_set_eq {V} (d : dict V) k v : dict_get (dict_set d k v) k = Some v.
Proof.
  induction d as [|[k' v'] d IH]; cbn.
  - by rewrite decide_True.
  - case_decide; cbn; [by rewrite decide_True|by rewrite decide_False].
Qed.

Lemma dict_get_set_ne {V} (d : dict V) k k' v :
  k ≠ k' → dict_get (dict_set d k v) k' = dict_get d k'.
Proof.
  intros Hne. induction d as [|[k0 v0] d IH]; cbn.
  - by rewrite decide_False.
  - case_decide; cbn; [subst; by rewrite !decide_False|].
    case_decide; [done|apply IH].
Qed.

Lemma dict_contains_true {V} (d : dict V) k :
  dict_contains d k = true ↔ is_Some (dict_get d k).
Proof. unfold dict_contains. apply bool_decide_eq_true. Qed.

Lemma dict_contains_false {V} (d : dict V) k :
  dict_contains d k = false ↔ dict_get d k = None.
Proof.
  unfold dict_contains. rewrite bool_decide_eq_false.
  by rewrite eq_None_not_Some.
Qed.

Lemma dict_get_Some_elem {V} (d : dict V) k v :
  dict_get d k = Some v → (k, v) ∈ d.
Proof.
  induction d as [|[k' v'] d IH]; cbn; [done|].
  case_decide as Hk; intros Hget.
  - injection Hget as ->. rewrite Hk. left.
  - right. by apply IH.
Qed.

Lemma dict_get_None {V} (d : dict V) k : dict_get d k = None ↔ k ∉ dict_keys d.
Proof.
  unfold dict_keys. induction d as [|[k' v'] d IH]; cbn.
  - split; [intros _; apply not_elem_of_nil|done].
  - rewrite not_elem_of_cons. case_decide as Hk.
    + split; [done|]. by intros [? _].
    + rewrite IH. split; [done|]. by intros [_ ?].
Qed.

Lemma dict_set_fresh {V} (d : dict V) k v :
  dict_get d k = None → dict_set d k v = d ++ [(k, v)].
Proof.
  induction d as [|[k' v'] d IH]; cbn; [done|].
  case_decide; [done|]. intros ?. by rewrite IH.
Qed.

Lemma deref_all_app objects d1 d2 :
  deref_all objects (d1 ++ d2) = deref_all objects d1 ++ deref_all objects d2.
Proof.
  induction d1 as [|[s l] d1 IH]; cbn; [done|].
  destruct (objects !! l); cbn; by rewrite IH.
Qed.

Lemma deref_all_keys objects (d : dict ref) :
  Forall (λ l, l < length objects)%nat (dict_values d) →
  (deref_all objects d).*1 = dict_keys d.
Proof.
  unfold dict_values, dict_keys.
  induction d as [|[s l] d IH]; cbn; [done|].
  intros [Hl Hd]%Forall_cons. apply lookup_lt_is_Some in Hl as [p Hp].
  rewrite Hp. cbn. by rewrite IH.
Qed.

(** Growing the store leaves what live references designate unchanged. *)
Lemma deref_all_grow objects extra (d : dict ref) :
  Forall (λ l, l < length objects)%nat (dict_values d) →
  deref_all (objects ++ extra) d = deref_all objects d.
Proof.
  unfold dict_values. induction d as [|[s l] d IH]; cbn; [done|].
  intros [Hl Hd]%Forall_cons. rewrite lookup_app_l by done. by rewrite IH.
Qed.

(** Writing to an address that the dict does not hold is not seen through it. *)
Lemma deref_all_alter_notin f objects l (d : dict ref) :
  l ∉ dict_values d → deref_all (alter f l objects) d = deref_all objects d.
Proof.
  unfold dict_values. induction d as [|[s l'] d IH]; cbn; [done|].
  intros [Hne Hd]%not_elem_of_cons.
  rewrite list_lookup_alter_ne by done. by rewrite IH.
Qed.

(** Writing to the object of [symbol] is seen at [symbol] and nowhere else. *)
Lemma deref_all_alter f objects symbol l (d : dict ref) :
  NoDup (dict_keys d) → NoDup (dict_values d) →
  dict_get d symbol = Some l →
  deref_all (alter f l objects) d =
    (λ entry, if decide (entry.1 = symbol) then (entry.1, f entry.2) else entry)
      <$> deref_all objects d.
Proof.
  unfold dict_keys, dict_values.
  induction d as [|[s l'] d IH]; cbn; [done|].
  intros [Hs Hks]%NoDup_cons [Hl Hvs]%NoDup_cons.
  case_decide as Heq; intros Hget; simplify_eq.
  - rewrite list_lookup_alter_eq.
    rewrite deref_all_alter_notin by done.
    destruct (objects !! l) as [p|]; cbn.
    + rewrite decide_True by done. f_equal.
      clear -Hs. induction d as [|[s' l'] d IH]; cbn in *; [done|].
      apply not_elem_of_cons in Hs as [? ?].
      destruct (objects !! l'); cbn; [|by apply IH].
      rewrite decide_False by done. f_equal. by apply IH.
    + clear -Hs. induction d as [|[s' l'] d IH]; cbn in *; [done|].
      apply not_elem_of_cons in Hs as [? ?].
      destruct (objects !! l'); cbn; [|by apply IH].
      rewrite decide_False by done. f_equal. by apply IH.
  - assert (l' ≠ l).
    { intros ->. apply Hl. apply dict_get_Some_elem in Hget.
      by apply (list_elem_of_fmap_2 snd) in Hget. }
    rewrite list_lookup_alter_ne by done.
    destruct (objects !! l') as [p|]; cbn.
    + rewrite decide_False by done. f_equal. by apply IH.
    + by apply IH.
Qed.

(** ** Running programs *)

Ltac run :=
  unfold when, bind, ret, gets, modify, raise, read_position, write_position,
    new_position, dict_getitem, float_div, exec, eval.

(** Running a sequence once the run of its head is known. *)
Lemma bind_run {A B} (m : M A) (k : A → M B) (w w' : World) (a : A) :
  m w = (Ok a, w') → bind m k w = k a w'.
Proof. intros H. unfold bind. by rewrite H. Qed.

Lemma bind_raise {A B} (m : M A) (k : A → M B) (w w' : World) (e : exn) :
  m w = (Raise e, w') → bind m k w = (Raise e, w').
Proof. intros H. unfold bind. by rewrite H. Qed.

Lemma bind_gets {A B} (f : World → A) (k : A → M B) (w : World) :
  bind (gets f) k w = k (f w) w.
Proof. done. Qed.


Lemma bind_modify {B} (f : World → World) (k : unit → M B) (w : World) :
  bind (modify f) k w = k tt (f w).
Proof. done. Qed.

Lemma emit_run env ty cid oid pl uid (w : World) :
  emit env ty cid oid pl uid w = (Ok tt, emitted env ty cid oid pl uid w).
Proof. done. Qed.

Lemma _reset_daily_volume_if_needed_run env (w : World) :
  _reset_daily_volume_if_needed env w = (Ok tt, volume_checked env w).
Proof.
  unfold _reset_daily_volume_if_needed, volume_checked.
  run. unfold datetime_utcnow. cbn. by destruct (_ >? _).
Qed.

Lemma lookup_snoc {A} (l : list A) (x : A) : (l ++ [x]) !! length l = Some x.
Proof. by rewrite lookup_app_r, Nat.sub_diag. Qed.

(** ** Frame reasoning *)

Section keeps.
Context (R : relation World) `{!PreOrder R}.

(** The program constructs maintain any preorder that their parts maintain. *)
Lemma keeps_ret {A} (a : A) : keeps R (ret a).
Proof. intros w. reflexivity. Qed.

Lemma keeps_raise {A} (e : exn) : keeps R (@raise A e).
Proof. intros w. reflexivity. Qed.

Lemma keeps_gets {A} (f : World → A) : keeps R (gets f).
Proof. intros w. reflexivity. Qed.

Lemma keeps_modify (f : World → World) : (∀ w, R w (f w)) → keeps R (modify f).
Proof. intros Hf w. apply Hf. Qed.

Lemma keeps_bind {A B} (m : M A) (k : A → M B) :
  keeps R m → (∀ a, keeps R (k a)) → keeps R (bind m k).
Proof.
  intros Hm Hk w. unfold bind. specialize (Hm w).
  destruct (m w) as [[a|e] w']; [|done].
  etrans; [exact Hm|apply Hk].
Qed.

Lemma keeps_try_except {A} (body : M A) (handler : exn → M A) :
  keeps R body → (∀ e, keeps R (handler e)) → keeps R (try_except body handler).
Proof.
  intros Hb Hh w. unfold try_except. specialize (Hb w).
  destruct (body w) as [[a|e] w']; [done|].
  destruct e; try done; (etrans; [exact Hb|apply Hh]).
Qed.

Lemma keeps_when (b : bool) (m : M unit) : keeps R m → keeps R (when b m).
Proof. intros Hm. destruct b; [done|apply keeps_ret]. Qed.

Lemma keeps_mapM {A B} (f : A → M B) (xs : list A) :
  (∀ x, keeps R (f x)) → keeps R (mapM f xs).
Proof.
  intros Hf. induction xs as [|x xs IH]; cbn; [apply keeps_ret|].
  apply keeps_bind; [done|]. intros y.
  apply keeps_bind; [done|]. intros ys. apply keeps_ret.
Qed.

Lemma keeps_dict_getitem {V} (d : dict V) (k : string) : keeps R (dict_getitem d k).
Proof. unfold dict_getitem. destruct (dict_get d k); [apply keeps_ret|apply keeps_raise]. Qed.

Lemma keeps_read_position (l : ref) : keeps R (read_position l).
Proof. intros w. unfold read_position. by destruct (_ !! _). Qed.

Lemma keeps_read_order (l : ref) : keeps R (read_order l).
Proof. intros w. unfold read_order. by destruct (_ !! _). Qed.

Lemma keeps_float_div (a b : float) : keeps R (float_div a b).
Proof. unfold float_div. destruct (_ =? _)%float; [apply keeps_raise|apply keeps_ret]. Qed.

Lemma keeps_asyncio_sleep : keeps R asyncio_sleep.
Proof. apply keeps_ret. Qed.
End keeps.

(** One step of a frame proof: peel the outermost program construct. *)
Ltac keeps_apply lem := apply lem; try typeclasses eauto.

Ltac keeps_step :=
  lazymatch goal with
  | |- keeps _ (bind _ _) => keeps_apply keeps_bind; [|intros ?]
  | |- keeps _ (ret _) => keeps_apply keeps_ret
  | |- keeps _ (raise _) => keeps_apply keeps_raise
  | |- keeps _ (gets _) => keeps_apply keeps_gets
  | |- keeps _ (when _ _) => keeps_apply keeps_when
  | |- keeps _ (try_except _ _) => keeps_apply keeps_try_except; [|intros ?]
  | |- keeps _ (mapM _ _) => keeps_apply keeps_mapM; intros ?
  | |- keeps _ (dict_getitem _ _) => keeps_apply keeps_dict_getitem
  | |- keeps _ (read_position _) => keeps_apply keeps_read_position
  | |- keeps _ (read_order _) => keeps_apply keeps_read_order
  | |- keeps _ (float_div _ _) => keeps_apply keeps_float_div
  | |- keeps _ asyncio_sleep => keeps_apply keeps_asyncio_sleep
  | |- keeps _ (if ?b then _ else _) => destruct b
  | |- keeps _ (match ?x with _ => _ end) => destruct x
  | |- keeps _ (modify _) => keeps_apply keeps_modify; intros ?
  | |- keeps _ (write_position _ _) => keeps_apply keeps_modify; intros ?
  | |- keeps _ (write_order _ _) => keeps_apply keeps_modify; intros ?
  | |- keeps _ (asyncio_create_task _) => keeps_apply keeps_modify; intros ?
  | |- keeps _ (new_position _) => intros ?; cbn [snd new_position]
  | |- keeps _ (new_order _) => intros ?; cbn [snd new_order]
  | |- keeps _ (uuid_uuid4 _) => intros ?; cbn [snd uuid_uuid4]
  | |- keeps _ (datetime_utcnow _) => intros ?; cbn [snd datetime_utcnow]
  | |- keeps _ (random _) => intros ?; cbn [snd random]
  end.

Global Instance order_book_kept_preorder env : PreOrder (order_book_kept env).
Proof.
  split.
  - by intros w.
  - intros w1 w2 w3 (?&?&?&?) (?&?&?&?). repeat split; try congruence. lia.
Qed.

(** Attribute writes that leave the fingerprint fields alone keep the
    fingerprints. *)
Lemma order_key_alter env (f : Order.t → Order.t) (l : ref) (os : list Order.t) :
  (∀ o, order_key env (f o) = order_key env o) →
  order_key env <$> alter f l os = order_key env <$> os.
Proof.
  intros Hf. revert l. induction os as [|o os IH]; intros [|l]; cbn; [done..| |].
  - by rewrite Hf.
  - by rewrite IH.
Qed.

Ltac program_unfold :=
  unfold _execute_order, execute_admitted, circuit_breaker_check, attempt_execution,
    attempt_failed, update_position, get_metrics, check_order,
    _calculate_projected_positions, _calculate_net_exposure,
    _calculate_gross_exposure, _reset_daily_volume_if_needed, emit, append, uniform.

Ltac order_book_leaf :=
  repeat split; cbn; try done; try lia;
  try (apply order_key_alter; by intros []).


Lemma keeps_retry_loop (R : relation World) `{!PreOrder R} env (order : ref)
    (attempts : list Z) :
  (∀ attempt, keeps R (attempt_execution env order attempt)) →
  (∀ attempt, keeps R (attempt_failed env order attempt)) →
  keeps R (retry_loop env order attempts).
Proof.
  intros Hexec Hfail. induction attempts as [|attempt rest IH]; cbn.
  - by keeps_step.
  - unfold attempt_block. repeat keeps_step; auto.
Qed.

Lemma update_position_keeps_order_book env order :
  keeps (order_book_kept env) (update_position order).
Proof. program_unfold. repeat keeps_step; order_book_leaf. Qed.





(** ** Projected positions and exposures *)

(** A held symbol designates a live object. *)
Lemma wf_lookup (w : World) (symbol : string) (l : ref) :
  positions_wf w →
  dict_get (positions (risk_engine w)) symbol = Some l →
  is_Some (position_objects w !! l).
Proof.
  intros [_ _ Hlive] Hl. apply lookup_lt_is_Some.
  apply dict_get_Some_elem, (list_elem_of_fmap_2 snd) in Hl.
  by apply (proj1 (Forall_forall _ _) Hlive) in Hl.
Qed.

(** Reading the objects of a dict of live references returns them in order
    and writes nothing. *)
Lemma mapM_read_position (w : World) (d : dict ref) :
  Forall (λ l, l < length (position_objects w))%nat (dict_values d) →
  mapM read_position (dict_values d) w
  = (Ok ((deref_all (position_objects w) d).*2), w).
Proof.
  unfold dict_values. induction d as [|[s l] d IH]; cbn; [done|].
  intros [Hl Hd]%Forall_cons. apply lookup_lt_is_Some in Hl as [p Hp].
  unfold bind, read_position at 1. rewrite Hp, IH by done. done.
Qed.

(** The entry of a symbol is the object its reference designates. *)
Lemma deref_all_entry objects (d : dict ref) symbol l p q :
  NoDup (dict_keys d) →
  dict_get d symbol = Some l → objects !! l = Some p →
  (symbol, q) ∈ deref_all objects d → q = p.
Proof.
  unfold dict_keys. induction d as [|[s l'] d IH]; cbn; [done|].
  intros [Hs Hks]%NoDup_cons. case_decide as Heq; intros Hget Hp Hin.
  - simplify_eq. rewrite Hp in Hin. apply elem_of_cons in Hin as [Hin|Hin].
    + by simplify_eq.
    + exfalso. apply Hs. apply (list_elem_of_fmap_2 fst) in Hin. cbn in Hin.
      clear -Hin. induction d as [|[s' l'] d IH]; cbn in *; [done|].
      destruct (objects !! l'); cbn in *.
      * apply elem_of_cons in Hin as [->|?]; [left|right; auto].
      * right; auto.
    - destruct (objects !! l').
      + apply elem_of_cons in Hin as [Hin|Hin]; [by simplify_eq|eauto].
      + eauto.
Qed.

Lemma add_to_symbol_absent (held : list (string * Position.t)) symbol delta :
  symbol ∉ held.*1 → add_to_symbol symbol delta <$> held = held.
Proof.
  induction held as [|[s p] held IH]; cbn; [done|].
  intros [Hne Hnotin]%not_elem_of_cons. unfold add_to_symbol at 1. cbn.
  rewrite decide_False by done. by rewrite IH.
Qed.

(** The run of the projection: the dict it returns reads as the
    specification's projection, and the risk engine's own dict, read through
    the same objects, has the order's signed quantity added to the order's
    symbol. *)
Lemma projected_positions_run (w : World) (order : Order.t) :
  positions_wf w →
  ∃ projected objects,
    _calculate_projected_positions order w
    = (Ok projected, with_position_objects objects w)
    ∧ Forall (λ l, l < length objects)%nat (dict_values projected)
    ∧ deref_all objects projected
      = spec_projection (held_positions w) (Order.symbol order) (order_delta order)
    ∧ deref_all objects (positions (risk_engine w))
      = add_to_symbol (Order.symbol order) (order_delta order) <$> held_positions w.
Proof.
  intros [Hkeys Hrefs Hlive].
  unfold _calculate_projected_positions, spec_projection, held_positions.
  rewrite deref_all_keys by done.
  unfold bind, gets, ret, dict_getitem, read_position, write_position, modify,
    new_position, signed_quantity. fold (order_delta order). cbn beta.
  set (d := positions (risk_engine w)) in *.
  set (objs := position_objects w) in *.
  destruct (dict_contains d (Order.symbol order)) eqn:Hk; cbn.
  - apply dict_contains_true in Hk as [l Hl].
    assert (Hlt : (l < length objs)%nat).
    { apply dict_get_Some_elem, (list_elem_of_fmap_2 snd) in Hl.
      by eapply (proj1 (Forall_forall _ _) Hlive) in Hl. }
    apply lookup_lt_is_Some in Hlt as [p Hp].
    rewrite Hl. cbn. fold objs. rewrite Hp. cbn.
    eexists _, _. split; [reflexivity|].
    assert (Hwritten :
      deref_all
        (alter (Position.set_quantity (Position.quantity p + order_delta order)) l objs)
        d
      = add_to_symbol (Order.symbol order) (order_delta order) <$> deref_all objs d).
    { rewrite (deref_all_alter _ _ (Order.symbol order)) by done.
      apply list_fmap_ext. intros i [s q] Hi. unfold add_to_symbol. cbn.
      case_decide as Hs; [|done]. subst s. f_equal.
      (* the quantity written is the one read before the write *)
      assert (q = p) as ->; [|done].
      apply list_elem_of_lookup_2 in Hi.
      by eapply deref_all_entry. }
    split; [by rewrite length_alter|]. split; [|done].
    rewrite bool_decide_eq_true_2; [done|].
    apply dict_get_Some_elem in Hl. by apply (list_elem_of_fmap_2 fst) in Hl.
  - apply dict_contains_false in Hk.
    rewrite dict_get_set_eq. cbn. fold objs.
    rewrite lookup_app_r, Nat.sub_diag by done. cbn.
    eexists _, _. split; [reflexivity|].
    assert (Hunseen :
      deref_all
        (alter (Position.set_quantity (0 + order_delta order)) (length objs)
           (objs ++ [Position.mk (Order.symbol order) 0 0 0]))
        d
      = deref_all objs d).
    { rewrite deref_all_alter_notin.
      - by rewrite deref_all_grow.
      - intros Hin. eapply (proj1 (Forall_forall _ _) Hlive) in Hin. lia. }
    split; [|split].
    + rewrite length_alter, length_app, dict_set_fresh by done. cbn.
      unfold dict_values in *. rewrite fmap_app. apply Forall_app. split.
      * eapply Forall_impl; [exact Hlive|]. cbn. lia.
      * repeat constructor. cbn. lia.
    + rewrite bool_decide_eq_false_2 by by apply dict_get_None.
      rewrite dict_set_fresh, deref_all_app by done.
      rewrite Hunseen. f_equal. cbn.
      rewrite list_lookup_alter_eq, lookup_app_r, Nat.sub_diag by done. done.
    + rewrite Hunseen, add_to_symbol_absent; [done|].
      rewrite deref_all_keys by done. by apply dict_get_None.
Qed.

(** The exposure functions compute the specification-side sums. *)
Lemma net_exposure_run (w : World) (d : dict ref) :
  Forall (λ l, l < length (position_objects w))%nat (dict_values d) →
  _calculate_net_exposure d w
  = (Ok (spec_net_exposure (deref_all (position_objects w) d)), w).
Proof.
  intros Hlive. unfold _calculate_net_exposure, bind, ret.
  rewrite mapM_read_position by done. unfold spec_net_exposure.
  by rewrite <-list_fmap_compose.
Qed.

Lemma gross_exposure_run (w : World) (d : dict ref) :
  Forall (λ l, l < length (position_objects w))%nat (dict_values d) →
  _calculate_gross_exposure d w
  = (Ok (spec_gross_exposure (deref_all (position_objects w) d)), w).
Proof.
  intros Hlive. unfold _calculate_gross_exposure, bind, ret.
  rewrite mapM_read_position by done. unfold spec_gross_exposure.
  by rewrite <-list_fmap_compose.
Qed.

(** Well-formedness and the held positions only depend on the dict and on
    the objects. *)
Lemma positions_wf_ext (w w' : World) :
  positions (risk_engine w') = positions (risk_engine w) →
  position_objects w' = position_objects w →
  positions_wf w → positions_wf w'.
Proof. intros Hp Ho [? ? ?]. split; by rewrite ?Hp, ?Ho. Qed.

Lemma held_positions_ext (w w' : World) :
  positions (risk_engine w') = positions (risk_engine w) →
  position_objects w' = position_objects w →
  held_positions w' = held_positions w.
Proof. intros Hp Ho. unfold held_positions. by rewrite Hp, Ho. Qed.



(** ** Pre-trade risk check *)



(** C3: with the kill switch enabled, whatever the order and the limits,
    [check_order] returns passed = false, violations exactly
    [KILL_SWITCH_ACTIVE] and the fixed message, and the store it leaves is
    the one left by the day-boundary reset and the RISK_CHECK_STARTED event
    alone: no limit is evaluated, no position is projected. *)
Theorem kill_switch_short_circuit env (w : World) (order : Order.t)
    (correlation_id : string) :
  RiskLimitsConfig.kill_switch_enabled (config (risk_engine w)) = true →
  let started :=
    emitted env RISK_CHECK_STARTED correlation_id (Order.order_id order)
      (PayloadRiskCheckStarted (Order.order_id order)) (Order.user_id order)
      (volume_checked env w) in
  check_order env order correlation_id w
  = (Ok (RiskCheckResult.mk false [KILL_SWITCH_ACTIVE]
           "Kill switch is active - all trading halted"),
     started)
  ∧ positions (risk_engine started) = positions (risk_engine w)
  ∧ position_objects started = position_objects w.
Proof.
  intros Hkill started. subst started. split.
  - unfold check_order.
    rewrite (bind_run _ _ _ _ _ (_reset_daily_volume_if_needed_run env w)).
    rewrite (bind_run _ _ _ _ _ (emit_run _ _ _ _ _ _ _)).
    rewrite bind_gets.
    replace (config (risk_engine (emitted _ _ _ _ _ _ _)))
      with (config (risk_engine w)).
    + by rewrite Hkill.
    + unfold volume_checked. cbn. by destruct (_ >? _).
  - unfold volume_checked. cbn. by destruct (_ >? _).
Qed.

Lemma check_order_message env (w : World) (order : Order.t) (cid : string)
    (r : RiskCheckResult.t) :
  RiskLimitsConfig.kill_switch_enabled (config (risk_engine w)) = false →
  eval (check_order env order cid) w = Ok r →
  RiskCheckResult.passed r = bool_decide (RiskCheckResult.violations r = [])
  ∧ RiskCheckResult.message r =
      if RiskCheckResult.passed r then "Risk check passed"
      else "Risk violations: " +:+ join ", " (value <$> RiskCheckResult.violations r).
Proof.
  intros Hkill. unfold check_order, eval.
  rewrite (bind_run _ _ _ _ _ (_reset_daily_volume_if_needed_run env w)).
  rewrite (bind_run _ _ _ _ _ (emit_run _ _ _ _ _ _ _)).
  set (w1 := emitted _ _ _ _ _ _ _).
  assert (Hc : config (risk_engine w1) = config (risk_engine w)).
  { subst w1. unfold volume_checked. cbn. by destruct (_ >? _). }
  rewrite bind_gets, Hc, Hkill, bind_gets.
  destruct (_calculate_projected_positions order w1) as [[d|e] w2] eqn:Hproj.
  2:{ by rewrite (bind_raise _ _ _ _ _ Hproj). }
  rewrite (bind_run _ _ _ _ _ Hproj).
  destruct (_calculate_net_exposure d w2) as [[net|e] w3] eqn:Hnet.
  2:{ by rewrite (bind_raise _ _ _ _ _ Hnet). }
  rewrite (bind_run _ _ _ _ _ Hnet).
  destruct (_calculate_gross_exposure d w3) as [[gross|e] w4] eqn:Hgross.
  2:{ by rewrite (bind_raise _ _ _ _ _ Hgross). }
  rewrite (bind_run _ _ _ _ _ Hgross).
  rewrite (bind_run _ _ _ _ _ (emit_run _ _ _ _ _ _ _)).
  unfold ret. cbn [fst]. intros [= <-].
  cbn [RiskCheckResult.violations RiskCheckResult.passed RiskCheckResult.message].
  split; [|done].
  apply bool_decide_ext. by rewrite length_zero_iff_nil.
Qed.

(** What a check with the kill switch disabled leaves behind: two events,
    RISK_CHECK_STARTED and then the result event, RISK_CHECK_PASSED iff the
    check passed; and the positions that the risk engine holds, with the
    order's signed quantity added to the order's symbol.  The second part is
    the write of the projection seen through the shared [Position] object. *)
Lemma check_order_effects env (w : World) (order : Order.t) (cid : string) :
  RiskLimitsConfig.kill_switch_enabled (config (risk_engine w)) = false →
  positions_wf w →
  ∃ r w' started result,
    check_order env order cid w = (Ok r, w')
    ∧ events (event_store w') = events (event_store w) ++ [started; result]
    ∧ Event.event_type started = RISK_CHECK_STARTED
    ∧ Event.event_type result
      = (if RiskCheckResult.passed r then RISK_CHECK_PASSED else RISK_CHECK_FAILED)
    ∧ positions (risk_engine w') = positions (risk_engine w)
    ∧ held_positions w'
      = add_to_symbol (Order.symbol order) (order_delta order) <$> held_positions w.
Proof.
  intros Hkill Hwf. unfold check_order.
  rewrite (bind_run _ _ _ _ _ (_reset_daily_volume_if_needed_run env w)).
  rewrite (bind_run _ _ _ _ _ (emit_run _ _ _ _ _ _ _)).
  set (w1 := emitted _ _ _ _ _ _ _).
  assert (Hc : config (risk_engine w1) = config (risk_engine w)).
  { subst w1. unfold volume_checked. cbn. by destruct (_ >? _). }
  assert (Hp : positions (risk_engine w1) = positions (risk_engine w)).
  { subst w1. unfold volume_checked. cbn. by destruct (_ >? _). }
  assert (Ho : position_objects w1 = position_objects w).
  { subst w1. unfold volume_checked. cbn. by destruct (_ >? _). }
  assert (He : ∃ started, events (event_store w1) = events (event_store w) ++ [started]
                          ∧ Event.event_type started = RISK_CHECK_STARTED).
  { subst w1. unfold volume_checked. cbn. destruct (_ >? _); by eexists. }
  destruct He as (started & He & Hstarted). clearbody w1.
  rewrite bind_gets, Hc, Hkill, bind_gets.
  destruct (projected_positions_run w1 order)
    as (d & objs & Hrun & Hlive & _ & Hheld); [by eapply positions_wf_ext|].
  rewrite (held_positions_ext w w1), Hp in Hheld by done.
  rewrite (bind_run _ _ _ _ _ Hrun).
  rewrite (bind_run _ _ _ _ _ (net_exposure_run (with_position_objects objs w1) d Hlive)).
  rewrite (bind_run _ _ _ _ _ (gross_exposure_run (with_position_objects objs w1) d Hlive)).
  rewrite (bind_run _ _ _ _ _ (emit_run _ _ _ _ _ _ _)).
  unfold ret. eexists _, _, started, _. split; [reflexivity|].
  cbn [RiskCheckResult.passed]. unfold held_positions. cbn. rewrite He, Hp.
  split; [by rewrite <-app_assoc|]. split; [done|]. split; [done|]. by split.
Qed.

(** C1 (not met by the code): [check_order] is meant to project positions
    without touching the risk engine's own.  The projection copies the dict
    but not the [Position] objects in it, so the write to the projected
    quantity lands on the held position: here a holding of 100 AAPL reads
    10100 after the check of an order that the check itself rejects.  The
    dict gains no entry and the average price is unchanged. *)
Theorem check_order_writes_held_position :
  let w' := exec (check_order calm_env oversized "corr-2") holding_aapl in
  eval (check_order calm_env oversized "corr-2") holding_aapl
  = Ok (RiskCheckResult.mk false [POSITION_LIMIT] "Risk violations: POSITION_LIMIT")
  ∧ position_of holding_aapl "AAPL" = Some (Position.mk "AAPL" 100 150 0)
  ∧ position_of w' "AAPL" = Some (Position.mk "AAPL" 10100 150 0)
  ∧ positions (risk_engine w') = positions (risk_engine holding_aapl).
Proof.
  cbv zeta. split_and!; vm_compute; reflexivity.
Qed.

(** C2 (not met by the code): every call is meant to append one result event
    after RISK_CHECK_STARTED.  With the kill switch enabled [check_order]
    returns before the result event is built: the check appends
    RISK_CHECK_STARTED and nothing else, and a submission is rejected with
    ORDER_CREATED and RISK_CHECK_STARTED as its whole trail. *)
Theorem kill_switch_check_emits_no_result_event :
  let w' := exec (check_order calm_env small "corr-1") halted in
  let submitted :=
    exec (submit_order calm_env (request "GOOGL" BUY 10 100 "k") "trader") halted in
  events (event_store halted) = []
  ∧ eval (check_order calm_env small "corr-1") halted
    = Ok (RiskCheckResult.mk false [KILL_SWITCH_ACTIVE] KILL_SWITCH_MESSAGE)
  ∧ Event.event_type <$> events (event_store w') = [RISK_CHECK_STARTED]
  ∧ Event.event_type <$> events (event_store submitted)
    = [ORDER_CREATED; RISK_CHECK_STARTED]
  ∧ Order.status <$> order_objects submitted = [REJECTED].
Proof. cbv zeta. split_and!; vm_compute; reflexivity. Qed.

(** ** Submission *)

Lemma submit_order_duplicate env (w : World) request user_id :
  _generate_execution_key env request user_id ∈ execution_keys (execution_engine w) →
  submit_order env request user_id w
  = (Raise DUPLICATE_SUBMISSION, with_uuid_draws (S (S (uuid_draws w))) w).
Proof.
  intros Hdup. unfold submit_order.
  unfold uuid_uuid4 at 1 2. unfold bind at 1 2. cbn [fst snd].
  rewrite bind_gets. cbn [execution_engine with_uuid_draws uuid_draws].
  rewrite bool_decide_eq_true_2 by done. unfold bind, raise. by destruct w.
Qed.

(** A first-time submission records the order and its ORDER_CREATED event,
    runs the risk check and concludes on its result. *)
Lemma submit_order_fresh env (w : World) request user_id :
  _generate_execution_key env request user_id ∉ execution_keys (execution_engine w) →
  submit_order env request user_id w
  = match check_order env
            (Order.set_status RISK_CHECK (created_order env request user_id w))
            (uuid4_str env (uuid_draws w)) (accepted env request user_id w) with
    | (Ok r, w') =>
        (Ok (response env request user_id w r w'),
         concluded env (length (order_objects w)) r w')
    | (Raise e, w') => (Raise e, w')
    end.
Proof.
  intros Hdup. unfold submit_order.
  unfold uuid_uuid4 at 1 2. unfold bind at 1 2. cbn [fst snd].
  rewrite bind_gets. cbn [execution_engine with_uuid_draws uuid_draws].
  rewrite bool_decide_eq_false_2 by done.
  rewrite bind_modify.
  unfold datetime_utcnow at 1. unfold bind at 1.
  unfold new_order at 1. unfold bind at 1. rewrite bind_modify.
  unfold read_order at 1. unfold bind at 1.
  cbn [order_objects with_execution_engine with_order_objects with_clock_reads
       with_uuid_draws].
  rewrite lookup_snoc.
  rewrite (bind_run _ _ _ _ _ (emit_run _ _ _ _ _ _ _)).
  unfold write_order at 1. rewrite bind_modify.
  unfold read_order at 1. unfold bind at 1.
  cbn [order_objects with_execution_engine with_order_objects with_clock_reads
       with_uuid_draws emitted].
  rewrite list_lookup_alter_eq, lookup_snoc. cbn [fmap option_fmap option_map].
  unfold bind at 1.
  change (with_order_objects _ _) with (accepted env request user_id w).
  change (Order.mk _ _ _ _ _ _ _ _ _ _ _ _ _ _ _)
    with (created_order env request user_id w).
  destruct (check_order _ _ _ _) as [[r|e] w']; [|done].
  unfold response, concluded.
  destruct (RiskCheckResult.passed r); cbn; reflexivity.
Qed.

















(** C9 as worded fails: the check of the oversized order fails with the kill
    switch disabled and its message is "Risk violations: POSITION_LIMIT",
    not "POSITION_LIMIT". *)
Lemma risk_message_is_not_bare_names :
  RiskLimitsConfig.kill_switch_enabled (config (risk_engine holding_aapl)) = false
  ∧ ¬ bare_names_message calm_env holding_aapl oversized "corr-2".
Proof.
  split; [vm_compute; reflexivity|].
  intros Hclaim.
  specialize (Hclaim (RiskCheckResult.mk false [POSITION_LIMIT]
                        "Risk violations: POSITION_LIMIT")).
  assert (Hmsg : "Risk violations: POSITION_LIMIT" = "POSITION_LIMIT").
  { apply Hclaim; vm_compute; reflexivity. }
  discriminate Hmsg.
Qed.

(** C9, amended: with the kill switch disabled, the message of a failed check
    is "Risk violations: " followed by the violation names joined with ", ",
    and a rejected submission carries that message of its own risk check. *)
Theorem rejection_message_prefixed env (w : World) :
  RiskLimitsConfig.kill_switch_enabled (config (risk_engine w)) = false →
  (∀ order correlation_id r,
     eval (check_order env order correlation_id) w = Ok r →
     RiskCheckResult.passed r = false →
     RiskCheckResult.message r
     = "Risk violations: " +:+ join ", " (value <$> RiskCheckResult.violations r))
  ∧ (∀ request user_id resp,
       eval (submit_order env request user_id) w = Ok resp →
       OrderResponse.status resp = REJECTED →
       ∃ r, eval (check_order env
                    (Order.set_status RISK_CHECK (created_order env request user_id w))
                    (OrderResponse.correlation_id resp))
                 (accepted env request user_id w) = Ok r
         ∧ RiskCheckResult.passed r = false
         ∧ RiskCheckResult.message r
           = "Risk violations: " +:+ join ", " (value <$> RiskCheckResult.violations r)
         ∧ OrderResponse.message resp = Some (RiskCheckResult.message r)).
Proof.
  intros Hkill. split.
  - intros order cid r Hrun Hfailed.
    destruct (check_order_message env w order cid r Hkill Hrun) as [_ Hmsg].
    by rewrite Hfailed in Hmsg.
  - intros request user_id resp Hrun Hrejected. unfold eval in Hrun.
    destruct (decide (_generate_execution_key env request user_id
                      ∈ execution_keys (execution_engine w))) as [Hdup|Hfresh].
    { by rewrite submit_order_duplicate in Hrun. }
    rewrite submit_order_fresh in Hrun by done.
    destruct (check_order _ _ _ _) as [[r|e] w'] eqn:Hcheck; [|done].
    injection Hrun as <-. cbn in Hrejected |- *.
    destruct (RiskCheckResult.passed r) eqn:Hpassed; [done|].
    exists r. unfold eval. rewrite Hcheck. split; [done|]. split; [done|].
    destruct (check_order_message env (accepted env request user_id w)
                (Order.set_status RISK_CHECK (created_order env request user_id w))
                (uuid4_str env (uuid_draws w)) r) as [_ Hmsg];
      [done|by unfold eval; rewrite Hcheck|].
    rewrite Hpassed in Hmsg. by split.
Qed.
(** ** Position settlement *)


(** C6: for an executed order, [update_position] returns normally and applies
    the signed delta (+executed_quantity for BUY, -executed_quantity for SELL)
    to the position of the order's symbol, a symbol not held yet starting from
    a flat position: when quantity + delta is nonzero the quantity becomes
    quantity + delta and the average price (quantity * average_price + delta *
    executed_price) / (quantity + delta); when it is zero the position becomes
    flat (quantity 0, average price 0); and the daily volume grows by quantity
    * limit price.  The positions are taken well formed, as they are in every
    reachable store ([run_ops_positions_wf]). *)
Theorem update_position_settles (w : World) (order : Order.t) (executed_price : float) :
  positions_wf w →
  Order.executed_price order = Some executed_price →
  let held := default (Position.mk (Order.symbol order) 0 0 0)
                (position_of w (Order.symbol order)) in
  let delta := match Order.side order with
               | BUY => Order.executed_quantity order
               | SELL => (- Order.executed_quantity order)%float
               end in
  let q := Position.quantity held in
  let avg := Position.average_price held in
  let w' := exec (update_position order) w in
  eval (update_position order) w = Ok tt
  ∧ position_of w' (Order.symbol order) =
      Some (if negb (q + delta =? 0)%float
            then Position.mk (Position.symbol held) (q + delta)%float
                   ((q * avg + delta * executed_price) / (q + delta))%float
                   (Position.realized_pnl held)
            else Position.mk (Position.symbol held) 0 0 (Position.realized_pnl held))
  ∧ daily_volume (risk_engine w') =
      (daily_volume (risk_engine w) + Order.quantity order * Order.price order)%float.
Proof.
  intros Hvalid Hpx held delta q avg w'.
  subst w'. unfold update_position, position_of in *.
  unfold float_ne, signed_quantity. fold delta.
  destruct (dict_contains (positions (risk_engine w)) (Order.symbol order)) eqn:Hk.
  - apply dict_contains_true in Hk as [l Hl].
    destruct (wf_lookup _ _ _ Hvalid Hl) as [p Hp].
    subst held q avg. rewrite Hl in *. cbn in *. rewrite Hp in *. cbn in *.
    run. cbn. rewrite (proj2 (dict_contains_true _ _)) by eauto. cbn.
    rewrite Hl. cbn. rewrite Hp.
    destruct (_ =? _)%float eqn:Hz; cbn.
    + rewrite Hl; cbn.
      rewrite !list_lookup_alter_eq, Hp. cbn. by repeat split.
    + rewrite Hpx. cbn.
      rewrite !list_lookup_alter_eq, Hp. cbn. rewrite Hz. cbn.
      rewrite Hl. cbn. rewrite !list_lookup_alter_eq, Hp. cbn. by repeat split.
  - apply dict_contains_false in Hk.
    subst held q avg. rewrite Hk in *. cbn in *.
    run. cbn. rewrite (proj2 (dict_contains_false _ _)) by done. cbn.
    rewrite dict_get_set_eq. cbn.
    rewrite lookup_app_r, Nat.sub_diag by done. cbn.
    destruct (_ =? _)%float eqn:Hz; cbn.
    + rewrite dict_get_set_eq. cbn.
      rewrite !list_lookup_alter_eq, lookup_app_r, Nat.sub_diag by done. by repeat split.
    + rewrite Hpx. cbn.
      rewrite !list_lookup_alter_eq, lookup_app_r, Nat.sub_diag by done. cbn.
      rewrite Hz. cbn. rewrite dict_get_set_eq. cbn.
      rewrite !list_lookup_alter_eq, lookup_app_r, Nat.sub_diag by done. by repeat split.
Qed.

(** C8 (not met by the code): the accumulator is meant to restart from zero at
    the first risk-engine operation of a new UTC day.  [check_order] and
    [get_metrics] reset it, [update_position] does not: a fill settled as the
    first operation after midnight is added to the previous day's 15000, and
    the next reset, later on that same day, takes the accumulator from 16500
    down to zero. *)
Theorem update_position_skips_daily_reset :
  let w := before_midnight in
  let now := utcnow overnight_env (clock_reads w) in
  let settled := exec (update_position second_fill) w in
  let executed := exec (_execute_order overnight_env 1%nat) w in
  date (daily_volume_reset (risk_engine w)) = 0
  ∧ date now = 1
  ∧ daily_volume (risk_engine w) = 15000%float
  ∧ order_objects executed !! 1%nat = Some second_fill
  ∧ daily_volume (risk_engine settled) = 16500%float
  ∧ daily_volume_reset (risk_engine settled) = daily_volume_reset (risk_engine w)
  ∧ daily_volume (risk_engine executed) = 16500%float
  ∧ daily_volume (risk_engine (exec (get_metrics overnight_env) w)) = 0%float
  ∧ daily_volume (risk_engine (exec (check_order overnight_env small "corr-1") w))
    = 0%float
  ∧ daily_volume (risk_engine (exec (get_metrics overnight_env) executed)) = 0%float.
Proof. cbv zeta. split_and!; vm_compute; reflexivity. Qed.

(** ** Well-formed positions *)

Global Instance positions_wf_kept_preorder : PreOrder positions_wf_kept.
Proof.
  split; [intros w Hw; exact Hw|].
  intros w1 w2 w3 H12 H23 Hw. apply H23, H12, Hw.
Qed.

Global Instance positions_kept_preorder : PreOrder positions_kept.
Proof.
  split; [by intros w|].
  intros w1 w2 w3 [? ?] [? ?]. split; [congruence|lia].
Qed.

(** Keeping the dict and losing no object keeps the positions well formed. *)
Lemma positions_kept_wf (w w' : World) :
  positions_kept w w' → positions_wf_kept w w'.
Proof.
  intros [Hp Hlen] [Hkeys Hrefs Hlive]. split; rewrite ?Hp; try done.
  eapply Forall_impl; [exact Hlive|]. cbn. lia.
Qed.

Ltac positions_leaf :=
  split; cbn; rewrite ?length_alter, ?length_app; cbn; try done; lia.

Lemma check_order_keeps_positions env order cid :
  keeps positions_kept (check_order env order cid).
Proof. program_unfold. repeat keeps_step; positions_leaf. Qed.

Lemma get_metrics_keeps_positions env :
  keeps positions_kept (get_metrics env).
Proof. program_unfold. repeat keeps_step; positions_leaf. Qed.

Lemma attempt_failed_keeps_positions env order attempt :
  keeps positions_kept (attempt_failed env order attempt).
Proof. program_unfold. repeat keeps_step; positions_leaf. Qed.

Lemma submit_order_keeps_positions env request user_id :
  keeps positions_kept (submit_order env request user_id).
Proof.
  unfold submit_order, emit, append.
  repeat keeps_step;
    first [ apply check_order_keeps_positions | positions_leaf ].
Qed.

(** Settlement keeps the positions well formed: a symbol not held yet gets
    a fresh object of its own. *)
Lemma update_position_keeps_wf order :
  keeps positions_wf_kept (update_position order).
Proof.
  intros w [Hkeys Hrefs Hlive].
  assert (Hwf : positions_wf w) by done.
  unfold update_position, float_ne.
  destruct (dict_contains (positions (risk_engine w)) (Order.symbol order)) eqn:Hk.
  - apply dict_contains_true in Hk as [l Hl].
    destruct (wf_lookup _ _ _ Hwf Hl) as [p Hp].
    run. cbn. rewrite (proj2 (dict_contains_true _ _)) by eauto. cbn.
    rewrite Hl. cbn. rewrite Hp.
    destruct (_ =? _)%float eqn:Hz; cbn.
    + split; cbn; rewrite ?length_alter; done.
    + destruct (Order.executed_price order); cbn; [|done].
      rewrite !list_lookup_alter_eq, Hp. cbn.
      destruct (_ =? _)%float; cbn; split; cbn; rewrite ?length_alter; done.
  - apply dict_contains_false in Hk.
    assert (Hfresh : length (position_objects w) ∉ dict_values (positions (risk_engine w))).
    { intros Hin. apply (proj1 (Forall_forall _ _) Hlive) in Hin. lia. }
    assert (Hwf' : ∀ objs : list Position.t,
              length objs = S (length (position_objects w)) →
              NoDup (dict_keys (dict_set (positions (risk_engine w))
                                  (Order.symbol order) (length (position_objects w))))
              ∧ NoDup (dict_values (dict_set (positions (risk_engine w))
                                  (Order.symbol order) (length (position_objects w))))
              ∧ Forall (λ l, l < length objs)%nat
                  (dict_values (dict_set (positions (risk_engine w))
                                  (Order.symbol order) (length (position_objects w))))).
    { intros objs Hlen. rewrite dict_set_fresh by done.
      unfold dict_keys, dict_values in *. rewrite !fmap_app. cbn.
      split_and!.
      - apply NoDup_app. split_and!; [done| |apply NoDup_singleton].
        intros s Hs ->%list_elem_of_singleton. by apply dict_get_None in Hk.
      - apply NoDup_app. split_and!; [done| |apply NoDup_singleton].
        by intros l Hl ->%list_elem_of_singleton.
      - apply Forall_app. split.
        + eapply Forall_impl; [exact Hlive|]. cbn. lia.
        + repeat constructor. lia. }
    run. cbn. rewrite (proj2 (dict_contains_false _ _)) by done. cbn.
    rewrite dict_get_set_eq. cbn. rewrite lookup_snoc. cbn.
    destruct (_ =? _)%float eqn:Hz; cbn.
    + match goal with |- positions_wf ?w' =>
        destruct (Hwf' (position_objects w')) as (?&?&?); [|by split] end.
      cbn. rewrite !length_alter, length_app. cbn. lia.
    + destruct (Order.executed_price order) as [px|]; cbn.
      * rewrite !list_lookup_alter_eq, lookup_snoc. cbn. rewrite Hz. cbn.
        match goal with |- positions_wf ?w' =>
          destruct (Hwf' (position_objects w')) as (?&?&?); [|by split] end.
        cbn. rewrite !length_alter, length_app. cbn. lia.
      * match goal with |- positions_wf ?w' =>
          destruct (Hwf' (position_objects w')) as (?&?&?); [|by split] end.
        cbn. rewrite length_app. cbn. lia.
Qed.

Ltac positions_wf_leaf := apply positions_kept_wf; positions_leaf.

Lemma attempt_execution_keeps_wf env order attempt :
  keeps positions_wf_kept (attempt_execution env order attempt).
Proof.
  unfold attempt_execution, emit, append, uniform.
  repeat keeps_step;
    first [ apply update_position_keeps_wf | positions_wf_leaf ].
Qed.

Lemma keeps_weaken (R R' : relation World) {A} (m : M A) :
  (∀ w w', R w w' → R' w w') → keeps R m → keeps R' m.
Proof. intros HR Hm w. apply HR, Hm. Qed.

Lemma _execute_order_keeps_wf env order :
  keeps positions_wf_kept (_execute_order env order).
Proof.
  unfold _execute_order, execute_admitted, circuit_breaker_check, emit, append.
  repeat keeps_step;
    first [ by keeps_apply keeps_retry_loop; intros attempt;
              [ apply attempt_execution_keeps_wf
              | apply (keeps_weaken positions_kept); [apply positions_kept_wf|];
                apply attempt_failed_keeps_positions ]
          | positions_wf_leaf ].
Qed.

Lemma startup_positions_wf env : positions_wf (startup env).
Proof. split; cbn; constructor. Qed.

Lemma run_op_positions_wf env (op : Op) (w : World) :
  positions_wf w → positions_wf (run_op env op w).
Proof.
  destruct op as [request user_id|order|limits|]; cbn.
  - apply positions_kept_wf, submit_order_keeps_positions.
  - apply _execute_order_keeps_wf.
  - by intros [? ? ?].
  - apply positions_kept_wf, get_metrics_keeps_positions.
Qed.

(** Every reachable store has well-formed positions. *)
Lemma run_ops_positions_wf env (ops : list Op) (w : World) :
  positions_wf w → positions_wf (run_ops env ops w).
Proof.
  revert w. induction ops as [|op ops IH]; intros w Hwf; [done|].
  cbn. apply IH. by apply run_op_positions_wf.
Qed.
(** ** Background execution and the circuit breaker *)







Global Instance breaker_kept_preorder : PreOrder breaker_kept.
Proof.
  split; [by intros w|].
  intros w1 w2 w3 [? ?] [? ?]. split; congruence.
Qed.


Global Instance orders_kept_preorder : PreOrder orders_kept.
Proof. split; [by intros w|]. intros w1 w2 w3 ? ?. unfold orders_kept in *. congruence. Qed.










(** ** Authorisation *)

Lemma UserRole_of_value_member (r : UserRole) : UserRole_of_value (Some (value r)) = Ok r.
Proof. by destruct r. Qed.

Lemma UserRole_of_value_unknown (x : option string) :
  (∀ r, x ≠ Some (value r)) → UserRole_of_value x = Raise ValueError.
Proof.
  intros Hx. destruct x as [s|]; [|done].
  unfold UserRole_of_value, UserRole_members. cbn.
  repeat case_decide; try done; subst; exfalso.
  - by apply (Hx TRADER).
  - by apply (Hx RISK_MANAGER).
  - by apply (Hx COMPLIANCE).
  - by apply (Hx ADMIN).
Qed.

(** Every role has its level in the hierarchy: the default is never used. *)
Lemma role_hierarchy_get_level (r : UserRole) (d : Z) : role_hierarchy_get r d = role_level r.
Proof. by destruct r. Qed.

(** C10: [check_permission] answers only for the four role strings.  For any
    other value of the role claim, a missing one included, it raises
    ValueError from the [UserRole] conversion, and [require_role] lets it
    through instead of answering 403; for the four it compares the levels 1 to
    4, so the default level 0 of the user's role is never used. *)
Theorem check_permission_unknown_role_raises
    (user_role : option string) (required_role : UserRole) (current_user : dict string) :
  (∀ r, user_role ≠ Some (value r)) →
  dict_get current_user "role" = user_role →
  check_permission user_role required_role = Raise ValueError
  ∧ require_role required_role current_user = Raise ValueError
  ∧ (∀ known, check_permission (Some (value known)) required_role
        = Ok (role_level known >=? role_level required_role))
  ∧ (∀ known d, role_hierarchy_get known d = role_level known ∧ 1 ≤ role_level known ≤ 4).
Proof.
  intros Hx Hrole.
  assert (Hc : check_permission user_role required_role = Raise ValueError).
  { unfold check_permission. by rewrite UserRole_of_value_unknown. }
  repeat split.
  - done.
  - unfold require_role. by rewrite Hrole, Hc.
  - intros known. unfold check_permission.
    by rewrite UserRole_of_value_member, !role_hierarchy_get_level.
  - apply role_hierarchy_get_level.
  - destruct known; cbn; lia.
  - destruct known; cbn; lia.
Qed.
(** * Instances on the scenarios *)



(** C3 on the halted engine: the check of a small order fails on the kill
    switch. *)
Lemma kill_switch_short_circuit_witness :
  RiskLimitsConfig.kill_switch_enabled (config (risk_engine halted)) = true
  ∧ eval (check_order calm_env small "corr-1") halted
    = Ok (RiskCheckResult.mk false [KILL_SWITCH_ACTIVE]
            "Kill switch is active - all trading halted").
Proof.
  assert (Hkill : RiskLimitsConfig.kill_switch_enabled (config (risk_engine halted))
                  = true) by (vm_compute; reflexivity).
  split; [exact Hkill|].
  destruct (kill_switch_short_circuit calm_env halted small "corr-1" Hkill)
    as [Hrun _].
  unfold eval. rewrite Hrun. reflexivity.
Defined.



(** C6 on the fill of the second order of the overnight scenario. *)
Lemma update_position_settles_witness :
  positions_wf before_midnight
  ∧ Order.executed_price second_fill = Some 150%float
  ∧ eval (update_position second_fill) before_midnight = Ok tt.
Proof.
  assert (Hwf : positions_wf before_midnight).
  { split; apply (bool_decide_unpack _); by vm_compute. }
  split; [exact Hwf|]. split; [reflexivity|].
  destruct (update_position_settles before_midnight second_fill 150%float Hwf eq_refl)
    as [Hrun _].
  exact Hrun.
Defined.


(** C9, amended, on the oversized order. *)
Lemma rejection_message_prefixed_witness :
  RiskLimitsConfig.kill_switch_enabled (config (risk_engine holding_aapl)) = false
  ∧ ∀ r, eval (check_order calm_env oversized "corr-2") holding_aapl = Ok r →
      RiskCheckResult.passed r = false →
      RiskCheckResult.message r
      = "Risk violations: " +:+ join ", " (value <$> RiskCheckResult.violations r).
Proof.
  assert (Hkill : RiskLimitsConfig.kill_switch_enabled
                    (config (risk_engine holding_aapl)) = false)
    by (vm_compute; reflexivity).
  split; [exact Hkill|].
  destruct (rejection_message_prefixed calm_env holding_aapl Hkill) as [Hmsg _].
  exact (Hmsg oversized "corr-2").
Defined.

(** C10 on a token whose role claim is "GUEST". *)
Lemma check_permission_unknown_role_raises_witness :
  (∀ r : UserRole, Some "GUEST" ≠ Some (value r))
  ∧ dict_get [("sub", "mallory"); ("role", "GUEST")] "role" = Some "GUEST"
  ∧ require_role RISK_MANAGER [("sub", "mallory"); ("role", "GUEST")]
    = Raise ValueError.
Proof.
  assert (Hunknown : ∀ r : UserRole, Some "GUEST" ≠ Some (value r))
    by (intros []; discriminate).
  split; [exact Hunknown|]. split; [reflexivity|].
  destruct (check_permission_unknown_role_raises (Some "GUEST") RISK_MANAGER
              [("sub", "mallory"); ("role", "GUEST")] Hunknown eq_refl)
    as (_ & Hrun & _).
  exact Hrun.
Defined.
